(** * skyfield_solar: sunrise/sunset series per receiver, in Rocq

    A shallow embedding of [skyfield_solar.py].  The script is one module-level
    loop over the receivers of [dxcc]; for every receiver it walks the date
    list, asks the ephemeris ([find_discrete] over [sunrise_sunset]) for the
    events of each day at the transmitter, the receiver and the midpoint,
    appends minute-of-day values to six Python lists, and draws one chart.

    Modelling choices, all following the source:
    - Python floats are binary64: [PrimFloat.float].  A list element is a float
      object; [np.nan] is one shared object, every value returned by
      [convert_to_minutes] is a fresh one ([slot]).
    - Python ints are [Z]; strings are [string], read as the UTF-8 bytes of the
      Python [str] (the characters the script replaces are ASCII, so replacing
      bytes and replacing code points agree).
    - Exceptions are the [Raise] case of [result]; nothing in the script
      catches one.
    - skyfield, pygeodesy, matplotlib and the [datetime] calendar are outside
      the repository: their calls are the fields of [libraries], and each of
      them may raise. *)

From Stdlib Require Import ZArith List String Ascii Bool Lia QArith Qabs Lqa.
From Stdlib Require Import Numbers.DecimalString.
From Stdlib Require Import Floats.PrimFloat Floats.FloatOps Floats.SpecFloat.
From Stdlib Require Import Numbers.Cyclic.Int63.Uint63.
Import ListNotations.

Set Warnings "-inexact-float".
Local Open Scope Z_scope.

(* ===================================================================== *)
(** ** The Python runtime the script relies on *)
(* ===================================================================== *)

Module Py.

(** Exceptions that can reach the top level of the script. *)
Inductive exn : Type :=
| IndexError                 (* list.pop() on an empty list *)
| NameError                  (* reading an unbound loop variable *)
| ValueError                 (* truth value of an array with several items *)
| External (who : string).   (* raised inside a library call *)

Inductive result (A : Type) : Type :=
| Ok (a : A)
| Raise (e : exn).
Arguments Ok {A} a.
Arguments Raise {A} e.

Definition bind {A B} (c : result A) (k : A -> result B) : result B :=
  match c with
  | Ok a => k a
  | Raise e => Raise e
  end.

(** [len(l)] *)
Definition len {A} (l : list A) : Z := Z.of_nat (List.length l).

(** [l.pop()]: removes and returns the last item; IndexError when empty. *)
Fixpoint pop {A} (l : list A) : result (A * list A) :=
  match l with
  | [] => Raise IndexError
  | [x] => Ok (x, [])
  | y :: l' =>
      match pop l' with
      | Ok (x, r) => Ok (x, y :: r)
      | Raise e => Raise e
      end
  end.

(** Truth value of a numpy boolean array, as [if yt:] takes it: the item of
    a one-item array, False for an empty one, ValueError otherwise. *)
Definition array_truth (y : list bool) : result bool :=
  match y with
  | [] => Ok false
  | [b] => Ok b
  | _ => Raise ValueError
  end.

(** [s.replace(old, new)] for a one-character [old]. *)
Fixpoint replace (old : ascii) (new : string) (s : string) : string :=
  match s with
  | EmptyString => EmptyString
  | String c s' =>
      if Ascii.eqb c old then new ++ replace old new s'
      else String c (replace old new s')
  end%string.

(** [str(n)], which is also what [%s] and [%d] print for an int. *)
Definition str_of_int (n : Z) : string :=
  NilZero.string_of_int (Z.to_int n).

(** [float(n)] for an int below 2^63 in absolute value (every int of the
    script is; Python rounds to nearest as [of_uint63] does). *)
Definition float_of_int (n : Z) : float :=
  if n <? 0 then PrimFloat.opp (PrimFloat.of_uint63 (Uint63.of_Z (- n)))
  else PrimFloat.of_uint63 (Uint63.of_Z n).

(** [a / b] on two ints: the correctly rounded quotient, which for ints that
    are exact as floats is the binary64 division of the converted values. *)
Definition truediv (a b : Z) : float :=
  PrimFloat.div (float_of_int a) (float_of_int b).

End Py.
Import Py.

Declare Scope py_scope.
Notation "x <- c ;; k" := (Py.bind c (fun x => k))
  (at level 61, c at next level, right associativity) : py_scope.
Notation "' p <- c ;; k" := (Py.bind c (fun p => k))
  (at level 61, p pattern, c at next level, right associativity) : py_scope.
Local Open Scope py_scope.

(* ===================================================================== *)
(** ** convert_to_minutes *)
(* ===================================================================== *)

(** What [Time.utc_datetime()] returns: a [datetime]; the script reads its
    hour, minute and second. *)
Record datetime : Type := mkDatetime {
  hour : Z;
  minute : Z;
  second : Z;
  microsecond : Z
}.

(** The ranges the [datetime] type guarantees for its fields. *)
Definition valid_datetime (tn : datetime) : Prop :=
  0 <= hour tn < 24 /\ 0 <= minute tn < 60 /\ 0 <= second tn < 60
  /\ 0 <= microsecond tn < 1000000.

(** A skyfield [Time]: only its UTC calendar reading matters to the script. *)
Record Time : Type := mkTime { utc_datetime : datetime }.

(** [[
    tn = dt.utc_datetime()
    return tn.hour * 60 + tn.minute + tn.second / 60
    ]] *)
Definition convert_to_minutes (dt : Time) : float :=
  let tn := utc_datetime dt in
  PrimFloat.add (float_of_int (hour tn * 60 + minute tn))
                (truediv (second tn) 60).

(** Exact reading of a float as a rational ([None] for NaN and infinities). *)
Definition Q_of_float (f : float) : option Q :=
  match Prim2SF f with
  | S754_zero _ => Some 0%Q
  | S754_finite s m e =>
      let n := if s then Z.neg m else Z.pos m in
      Some (if 0 <=? e then inject_Z (n * 2 ^ e)
            else Qmake n (Z.to_pos (2 ^ (- e))))
  | S754_infinity _ | S754_nan => None
  end.

(** The minute of day as the exact rational the formula denotes. *)
Definition exact_minutes (tn : datetime) : Q :=
  (inject_Z (hour tn * 60 + minute tn) + Qmake (second tn) 60)%Q.

(** One float checked against the formula: not NaN, in range, and within
    2^-42 of the exact rational. *)
Definition minutes_ok (h m s : Z) : bool :=
  let v := convert_to_minutes (mkTime (mkDatetime h m s 0)) in
  negb (PrimFloat.is_nan v) && PrimFloat.leb 0 v && PrimFloat.ltb v 1440 &&
  match Q_of_float v with
  | Some q =>
      Qle_bool (Qabs (q - exact_minutes (mkDatetime h m s 0))) (Qmake 1 (2 ^ 42))
  | None => false
  end.

Definition zrange (n : nat) : list Z := map Z.of_nat (seq 0 n).

(** Exhaustive check of a predicate over every (hour, minute, second). *)
Definition every_hms (P : Z -> Z -> Z -> bool) : bool :=
  forallb (fun h =>
    forallb (fun m =>
      forallb (fun s => P h m s) (zrange 60)) (zrange 60)) (zrange 24).

(* ===================================================================== *)
(** ** The per-day block of one location *)
(* ===================================================================== *)

(** An item of the sunrise and sunset lists: the [np.nan] object, or the float
    a call of [convert_to_minutes] returned. *)
Inductive slot : Type :=
| np_nan
| minutes (v : float).

(** The float an item holds. *)
Definition float_of (x : slot) : float :=
  match x with
  | np_nan => PrimFloat.nan
  | minutes v => v
  end.

(** An item the chart draws as a gap: its value is NaN. *)
Definition is_missing (x : slot) : bool := PrimFloat.is_nan (float_of x).

(** [find_discrete] returns two parallel arrays, the times and the values of
    [sunrise_sunset] there (True = sunrise); an event is one position of both:
    [tx] is [map fst], [yt] is [map snd], [zip(tx, yt)] the list itself. *)
Definition event : Type := (Time * bool)%type.

(** One location's share of the script's variables: the two lists ([t_sr] and
    [t_ss] at the transmitter) and the variable of the assignment loop ([yx]),
    unbound until that loop has run once. *)
Record loc : Type := mkLoc {
  sr : list slot;
  ss : list slot;
  loop_flag : option bool
}.

(** Lines 114-123.  Lines 126-134 and 137-145 do the same for [rx] and [mp];
    they test [len(rx) == 1] and [len(mp) == 1] where this one tests
    [len(yt) == 1], the same number since the two arrays are parallel.
    [[
    if not len(tx):
        t_sr.append(np.nan)
        t_ss.append(np.nan)
    elif len(yt) == 1:
        if yt:
            t_ss.append(np.nan)
        else:
            t_sr.append(np.nan)
    ]] *)
Definition mark_missing (evs : list event) (s : loc) : result loc :=
  let tx := map fst evs in
  let yt := map snd evs in
  if len tx =? 0 then
    Ok (mkLoc (sr s ++ [np_nan]) (ss s ++ [np_nan]) (loop_flag s))
  else if len yt =? 1 then
    b <- array_truth yt ;;
    if b : bool then Ok (mkLoc (sr s) (ss s ++ [np_nan]) (loop_flag s))
    else Ok (mkLoc (sr s ++ [np_nan]) (ss s) (loop_flag s))
  else Ok s.

(** Lines 148-152 (162-166 and 174-178 for [rx] and [mp]):
    [[
    for time, yx in zip(tx, yt):
        if yx:
            t_sr.append(convert_to_minutes(time))
        else:
            t_ss.append(convert_to_minutes(time))
    ]] *)
Fixpoint assign (evs : list event) (s : loc) : loc :=
  match evs with
  | [] => s
  | (time, yx) :: rest =>
      assign rest
        (if yx then mkLoc (sr s ++ [minutes (convert_to_minutes time)]) (ss s) (Some yx)
         else mkLoc (sr s) (ss s ++ [minutes (convert_to_minutes time)]) (Some yx))
  end.

(** Lines 155-160 (168-172 and 180-184 for [rx] and [mp]).  [yx] is the
    variable the loop above left behind; reading it unbound is a NameError.
    [[
    if len(list(zip(tx, yt))) == 3:
        if yx:
            t_sr.pop()
        else:
            t_ss.pop()
    ]] *)
Definition repair (evs : list event) (s : loc) : result loc :=
  if len evs =? 3 then
    match loop_flag s with
    | None => Raise NameError
    | Some yx =>
        if yx then
          '(_, rest) <- pop (sr s) ;; Ok (mkLoc rest (ss s) (loop_flag s))
        else
          '(_, rest) <- pop (ss s) ;; Ok (mkLoc (sr s) rest (loop_flag s))
    end
  else Ok s.

(** Everything the per-day body does to one location's lists, given the events
    the ephemeris returned for it. *)
Definition segment_day (evs : list event) (s : loc) : result loc :=
  s1 <- mark_missing evs s ;;
  repair evs (assign evs s1).

(** The days of one location in date order. *)
Fixpoint segment_days (days : list (list event)) (s : loc) : result loc :=
  match days with
  | [] => Ok s
  | evs :: rest => s' <- segment_day evs s ;; segment_days rest s'
  end.

(** The event sets the block brings back to one value per side. *)
Definition reconcilable (evs : list event) : bool :=
  match evs with
  | [] => true
  | [_] => true
  | [(_, y1); (_, y2)] => xorb y1 y2
  | [(_, y1); (_, y2); _] => xorb y1 y2
  | _ => false
  end.

(** The day's sunrise slot as the specification describes it: the minute of
    day of the rising event, or missing when the day has none. *)
Definition day_sunrise (evs : list event) : slot :=
  match find (fun e => snd e) evs with
  | Some (time, _) => minutes (convert_to_minutes time)
  | None => np_nan
  end.

(** The day's sunset slot, likewise. *)
Definition day_sunset (evs : list event) : slot :=
  match find (fun e => negb (snd e)) evs with
  | Some (time, _) => minutes (convert_to_minutes time)
  | None => np_nan
  end.

(** The values a day's events carry for one side, in event order. *)
Definition side_values (rising : bool) (evs : list event) : list slot :=
  map (fun e => minutes (convert_to_minutes (fst e)))
      (filter (fun e => Bool.eqb (snd e) rising) evs).

(* ===================================================================== *)
(** ** Fill polarity *)
(* ===================================================================== *)

(** [a == b] on two items of the lists, with the identity shortcut list
    comparison takes first: [np.nan] is one object, so it is the same item as
    itself although [nan == nan] is False; two results of
    [convert_to_minutes] are distinct objects compared by value. *)
Definition item_eq (a b : slot) : bool :=
  match a, b with
  | np_nan, np_nan => true
  | _, _ => PrimFloat.eqb (float_of a) (float_of b)
  end.

(** [a <= b] on two items. *)
Definition item_le (a b : slot) : bool :=
  PrimFloat.leb (float_of a) (float_of b).

(** [v <= w] on two Python lists: the first position where the items differ
    decides, by [<=] on those items; when one list is a prefix of the other,
    the lengths decide. *)
Fixpoint list_le (v w : list slot) : bool :=
  match v, w with
  | a :: v', b :: w' => if item_eq a b then list_le v' w' else item_le a b
  | [], _ => true
  | _ :: _, [] => false
  end.

(** Second boundary of a [fill_between] call: a number or another curve. *)
Inductive bound : Type :=
| Level (y : Z)
| Curve (ys : list slot).

(** One call [ax.fill_between(x, y1, y2, facecolor=..., alpha=...,
    interpolate=True)]. *)
Record fill_between : Type := mkFill {
  fill_y1 : list slot;
  fill_y2 : bound;
  facecolor : string;
  alpha : float
}.

(** The two branches of lines 216-220 and 222-226. *)
Inductive polarity : Type := Normal | Inverted.

Definition polarity_of (sunrise sunset : list slot) : polarity :=
  if list_le sunrise sunset then Normal else Inverted.

(** Lines 216-220, on [t_sr] and [t_ss]. *)
Definition tx_fill (t_sr t_ss : list slot) : list fill_between :=
  if list_le t_sr t_ss then
    [mkFill t_ss (Level 1440) "lightgrey" 0.3; mkFill t_sr (Level 0) "lightgrey" 0.3]
  else
    [mkFill t_ss (Curve t_sr) "blue" 0.3].

(** Lines 222-226, on [r_sr] and [r_ss]. *)
Definition rx_fill (r_sr r_ss : list slot) : list fill_between :=
  if list_le r_sr r_ss then
    [mkFill r_ss (Level 1440) "blue" 0.1; mkFill r_sr (Level 0) "blue" 0.1]
  else
    [mkFill r_ss (Curve r_sr) "blue" 0.1].

(** The regions of a call list, without their colours. *)
Definition regions (calls : list fill_between) : list (list slot * bound) :=
  map (fun c => (fill_y1 c, fill_y2 c)) calls.

(** The rule as the specification words it: the first sunrise value is at most
    the first sunset value. *)
Definition first_value_rule (sunrise sunset : list slot) : bool :=
  match sunrise, sunset with
  | a :: _, b :: _ => item_le a b
  | _, _ => false
  end.

(* ===================================================================== *)
(** ** The script: settings, libraries, the date loop, the receiver loop *)
(* ===================================================================== *)

(** [Topos(lat, lon, elevation_m=elv)] *)
Record Topos : Type := mkTopos {
  latitude : float;
  longitude : float;
  elevation_m : Z
}.

(** An entry of [dxcc]: [[name, latitude, longitude]]. *)
Record receiver : Type := mkReceiver {
  cty : string;
  rxlat : float;
  rxlon : float
}.

(** The constants the script sets at module level.  A date is its proleptic
    Gregorian ordinal ([date.toordinal()]). *)
Record settings : Type := mkSettings {
  txname : string;
  txlat : float;
  txlon : float;
  elv : Z;
  start_date : Z;
  end_date : Z;
  dxcc : list receiver
}.

(** What the script draws for one receiver (lines 187-243): the date axis, the
    six curves in the order of the [ax.plot] calls, the [fill_between] calls,
    the legend labels and the title. *)
Record figure : Type := mkFigure {
  fig_dates : list string;
  fig_curves : list (list slot);
  fig_fills : list fill_between;
  fig_legend : list string;
  fig_title : string
}.

(** A chart written by [plt.savefig]. *)
Record chart : Type := mkChart {
  filename : string;
  drawing : figure
}.

(** The calls that leave the repository.
    - [find_discrete loc date]: [find_discrete(t0, t1, sunrise_sunset(planets,
      loc))] over the day that starts at [date] (skyfield);
    - [midpoint lat1 lon1 lat2 lon2]: [get_mp] followed by [dms.parseDMS2]
      (pygeodesy);
    - [date_year], [utc_strftime]: the calendar reading of a date ([.year],
      [utc_strftime("%Y-%m-%d")]);
    - [render fig name]: the matplotlib calls of lines 187-246, ending in
      [plt.savefig(name)]. *)
Record libraries : Type := mkLibraries {
  find_discrete : Topos -> Z -> result (list event);
  midpoint : float -> float -> float -> float -> result (float * float);
  date_year : Z -> Z;
  utc_strftime : Z -> string;
  render : figure -> string -> result unit
}.

(** The lists and loop variables the date loop works on. *)
Record lists : Type := mkLists {
  dates : list string;
  at_tx : loc;    (* t_sr, t_ss, yx *)
  at_rx : loc;    (* r_sr, r_ss, yy *)
  at_mp : loc     (* mp_sr, mp_ss, yz *)
}.

(** The loop variables [yx], [yy], [yz]: module globals, so they outlive the
    receiver they were bound for. *)
Record loopvars : Type := mkVars {
  yx : option bool;
  yy : option bool;
  yz : option bool
}.

(** Lines 82-86:
    [[
    prefix = cty.replace(' ', '_').replace('.', '').replace(',', '').replace('/', '')
    ]] *)
Definition prefix (name : string) : string :=
  replace "/" "" (replace "," "" (replace "." "" (replace " " "_" name))).

(** What the four replacements do to one character, as the specification
    describes the sanitization. *)
Definition sanitize_char (c : ascii) : string :=
  if Ascii.eqb c " " then "_"
  else if Ascii.eqb c "." || Ascii.eqb c "," || Ascii.eqb c "/" then ""
  else String c "".

Section Script.

Variable cfg : settings.
Variable lib : libraries.

(** [txloc = Topos(txlat, txlon, elevation_m=elv)] *)
Definition txloc : Topos := mkTopos (txlat cfg) (txlon cfg) (elv cfg).

(** Line 65:
    [[
    date_list = [start_date + timedelta(days=x)
                 for x in range(0, (end_date-start_date).days)]
    ]] *)
Definition date_list : list Z :=
  map (fun x => start_date cfg + x)
      (zrange (Z.to_nat (end_date cfg - start_date cfg))).

(** The body of [for date in date_list] (lines 104-184), in source order:
    the three queries with their missing-value branches first, then the
    three assignment loops with their repairs. *)
Definition date_body (rxloc mploc : Topos) (st : lists) (date : Z)
  : result lists :=
  let dates' := dates st ++ [utc_strftime lib date] in
  tx <- find_discrete lib txloc date ;;
  t1 <- mark_missing tx (at_tx st) ;;
  rx <- find_discrete lib rxloc date ;;
  r1 <- mark_missing rx (at_rx st) ;;
  mp <- find_discrete lib mploc date ;;
  m1 <- mark_missing mp (at_mp st) ;;
  t2 <- repair tx (assign tx t1) ;;
  r2 <- repair rx (assign rx r1) ;;
  m2 <- repair mp (assign mp m1) ;;
  Ok (mkLists dates' t2 r2 m2).

Fixpoint for_dates (rxloc mploc : Topos) (ds : list Z) (st : lists)
  : result lists :=
  match ds with
  | [] => Ok st
  | date :: rest =>
      st' <- date_body rxloc mploc st date ;;
      for_dates rxloc mploc rest st'
  end.

(** Line 78: the seven lists start empty; the loop variables keep whatever
    an earlier receiver left in them. *)
Definition fresh_lists (vars : loopvars) : lists :=
  mkLists [] (mkLoc [] [] (yx vars)) (mkLoc [] [] (yy vars))
          (mkLoc [] [] (yz vars)).

(** Line 245: ['%s_%s_%s' % (start_date.year, txname, prefix)] *)
Definition chart_name (country : receiver) : string :=
  (str_of_int (date_year lib (start_date cfg)) ++ "_" ++ txname cfg ++ "_"
   ++ prefix (cty country))%string.

(** Lines 208-243: the curves, fills, legend and title handed to
    matplotlib. *)
Definition draw (country : receiver) (st : lists) : figure :=
  let t := at_tx st in
  let r := at_rx st in
  let m := at_mp st in
  mkFigure
    (dates st)
    [sr t; sr r; sr m; ss t; ss r; ss m]
    (tx_fill (sr t) (ss t) ++ rx_fill (sr r) (ss r))
    [txname cfg ++ " sr"; txname cfg ++ " ss";
     cty country ++ " sr"; cty country ++ " ss";
     "Midpoint sr"; "Midpoint ss"]%string
    (str_of_int (date_year lib (start_date cfg))
     ++ " Sunrise/Sunset Analysis for circuit: " ++ txname cfg ++ " to "
     ++ cty country)%string.

(** The body of [for country in dxcc] (lines 78-247).  It returns the chart
    it saved and the loop variables it leaves behind.  The receiver's
    coordinates are floats, as in the script's list; for such values the
    [Topos] constructions (lines 87, 93) and the formatter objects (lines
    96-99) are taken to return. *)
Definition process_receiver (vars : loopvars) (country : receiver)
  : result (loopvars * chart) :=
  let rxloc := mkTopos (rxlat country) (rxlon country) (elv cfg) in
  '(mp_lat, mp_lon) <-
     midpoint lib (txlat cfg) (txlon cfg) (rxlat country) (rxlon country) ;;
  let mploc := mkTopos mp_lat mp_lon (elv cfg) in
  st <- for_dates rxloc mploc date_list (fresh_lists vars) ;;
  let fig := draw country st in
  _ <- render lib fig (chart_name country) ;;
  Ok (mkVars (loop_flag (at_tx st)) (loop_flag (at_rx st))
             (loop_flag (at_mp st)),
      mkChart (chart_name country) fig).

(** [for country in dxcc]: no handler anywhere, so the first exception ends
    the script.  The result is the charts saved so far and how the loop
    ended. *)
Fixpoint receiver_loop (rs : list receiver) (vars : loopvars)
         (saved : list chart) : list chart * result unit :=
  match rs with
  | [] => (saved, Ok tt)
  | country :: rest =>
      match process_receiver vars country with
      | Ok (vars', c) => receiver_loop rest vars' (saved ++ [c])
      | Raise e => (saved, Raise e)
      end
  end.

(** The whole script: every loop variable unbound at the start. *)
Definition main : list chart * result unit :=
  receiver_loop (dxcc cfg) (mkVars None None None) [].

(** The events of a day at a location, when the query returned. *)
Definition events_at (where_ : Topos) (date : Z) : list event :=
  match find_discrete lib where_ date with
  | Ok evs => evs
  | Raise _ => []
  end.

End Script.

(* ===================================================================== *)
(** ** The script's own constants, and sample libraries to run it on *)
(* ===================================================================== *)

(** Lines 56-73; 2020-01-01 and 2020-02-01 as ordinals. *)
Definition script_settings : settings :=
  mkSettings "ZL1 Auckland" (-36.85) 174.77 0 737425 737456
    [ mkReceiver "3Y/B Bouvet" (-54.42) 3.381;
      mkReceiver "PY0T Trindade & Martim Vaz Is" (-20.5) (-29.33);
      mkReceiver "W2 New York City, NY" 40.8 (-74.0);
      mkReceiver "OJ0 MÃ¤rket Reef" 60.300833 19.131389 ].

Definition at_hms (h m s : Z) : Time := mkTime (mkDatetime h m s 0).

(** A sample ephemeris: sunrise 06:10:30 and sunset 18:20:15 every day,
    except north of 66 degrees, where the sun does not cross the horizon,
    and beyond 85 degrees either way, where the query fails. *)
Definition sample_ephemeris (where_ : Topos) (date : Z) : result (list event) :=
  if PrimFloat.ltb 85 (PrimFloat.abs (latitude where_)) then
    Raise (External "find_discrete")
  else if PrimFloat.ltb 66 (latitude where_) then Ok []
  else Ok [(at_hms 6 10 30, true); (at_hms 18 20 15, false)].

(** An ephemeris that reports two sunrises on every day. *)
Definition doubled_ephemeris (where_ : Topos) (date : Z) : result (list event) :=
  Ok [(at_hms 6 10 30, true); (at_hms 6 10 31, true)].

(** A midpoint that averages the coordinates (enough to run the script). *)
Definition sample_midpoint (lat1 lon1 lat2 lon2 : float)
  : result (float * float) :=
  Ok (PrimFloat.div (PrimFloat.add lat1 lat2) 2,
      PrimFloat.div (PrimFloat.add lon1 lon2) 2).

Definition sample_lib : libraries :=
  mkLibraries sample_ephemeris sample_midpoint (fun _ => 2020)
              (fun d => str_of_int d) (fun _ _ => Ok tt).

Definition doubled_lib : libraries :=
  mkLibraries doubled_ephemeris sample_midpoint (fun _ => 2020)
              (fun d => str_of_int d) (fun _ _ => Ok tt).

(** Two receivers over two days: the first beyond the sample ephemeris' reach,
    the second New York City. *)
Definition two_receivers : settings :=
  mkSettings "ZL1 Auckland" (-36.85) 174.77 0 737425 737427
    [ mkReceiver "North Pole" 90 0;
      mkReceiver "W2 New York City, NY" 40.8 (-74.0) ].

(** One receiver over two days. *)
Definition one_receiver : settings :=
  mkSettings "ZL1 Auckland" (-36.85) 174.77 0 737425 737427
    [ mkReceiver "W2 New York City, NY" 40.8 (-74.0) ].

(* ===================================================================== *)
(** ** The claims' wording, as predicates on the model *)
(* ===================================================================== *)

(** The day left exactly one value on each side. *)
Definition one_value_each (evs : list event) (s : loc) : Prop :=
  exists a b f,
    segment_day evs s = Ok (mkLoc (sr s ++ [a]) (ss s ++ [b]) f).

(** A day outside the branches of the block: two events with one flag, or
    four events or more. *)
Definition unreconciled (evs : list event) : bool :=
  match evs with
  | [(_, y1); (_, y2)] => Bool.eqb y1 y2
  | _ => (4 <=? List.length evs)%nat
  end.

(** The day appended two values or more to one side and none to the other. *)
Definition one_sided (evs : list event) (s : loc) : Prop :=
  exists s', segment_day evs s = Ok s' /\
    ((List.length (sr s) + 2 <= List.length (sr s') /\ List.length (ss s') = List.length (ss s))%nat
     \/ (List.length (ss s) + 2 <= List.length (ss s') /\ List.length (sr s') = List.length (sr s))%nat).

(** The loop variable after the assignment loop over [evs]. *)
Definition flag_after (evs : list event) (f : option bool) : option bool :=
  fold_left (fun _ e => Some (snd e)) evs f.

(** The receivers of a list processed one after the other, when none fails:
    the loop variables left and the charts saved, in order. *)
Fixpoint process_all (cfg : settings) (lib : libraries) (rs : list receiver)
         (vars : loopvars) : result (loopvars * list chart) :=
  match rs with
  | [] => Ok (vars, [])
  | country :: rest =>
      '(vars', c) <- process_receiver cfg lib vars country ;;
      '(vars'', cs) <- process_all cfg lib rest vars' ;;
      Ok (vars'', c :: cs)
  end.

(** One slot per date, in date order: the day's sunrise (sunset) at a
    location, missing when the day has no rising (setting) event. *)
Definition sunrise_series (lib : libraries) (where_ : Topos) (ds : list Z)
  : list slot :=
  map (fun date => day_sunrise (events_at lib where_ date)) ds.

Definition sunset_series (lib : libraries) (where_ : Topos) (ds : list Z)
  : list slot :=
  map (fun date => day_sunset (events_at lib where_ date)) ds.

(** Every query of the date loop returns, and returns a reconcilable day. *)
Definition reconcilable_run (lib : libraries) (places : list Topos)
           (ds : list Z) : Prop :=
  forall date where_, In date ds -> In where_ places ->
    exists evs, find_discrete lib where_ date = Ok evs
                /\ reconcilable evs = true.

(** The sanitized receiver name as the specification describes it, character
    by character: a space becomes an underscore; a period, a comma or a slash
    is dropped; every other character is kept. *)
Fixpoint sanitize (s : string) : string :=
  match s with
  | EmptyString => EmptyString
  | String c s' => (sanitize_char c ++ sanitize s')%string
  end.

(** The characters of a string. *)
Definition chars (s : string) : list ascii := list_ascii_of_string s.

(* ===================================================================== *)
(** ** nearest_minute *)
(* ===================================================================== *)

(** A [datetime] with its date: the date as its ordinal ([toordinal()]), the
    time of day as the fields above. *)
Record pydatetime : Type := mkPy {
  toordinal : Z;
  clock : datetime
}.

(** [date.max.toordinal()], the ordinal of 9999-12-31. *)
Definition max_ordinal : Z := 3652059.

(** Microseconds in a day. *)
Definition day_us : Z := 86400000000.

(** Microseconds since midnight. *)
Definition clock_us (tn : datetime) : Z :=
  ((hour tn * 60 + minute tn) * 60 + second tn) * 1000000 + microsecond tn.

(** Microseconds since the start of day 0. *)
Definition epoch_us (d : pydatetime) : Z :=
  toordinal d * day_us + clock_us (clock d).

(** [dt + timedelta(seconds=n)]: the fields are renormalized and the day
    carried over; OverflowError ([None]) when the date leaves
    0001-01-01 .. 9999-12-31. *)
Definition add_seconds (d : pydatetime) (n : Z) : option pydatetime :=
  let us := clock_us (clock d) + n * 1000000 in
  let days := toordinal d + us / day_us in
  let rest := us mod day_us in
  if (0 <? days) && (days <=? max_ordinal) then
    Some (mkPy days
            (mkDatetime (rest / 3600000000) (rest / 60000000 mod 60)
                        (rest / 1000000 mod 60) (rest mod 1000000)))
  else None.

(** [dt.replace(second=s, microsecond=us)] *)
Definition replace_second (d : pydatetime) (s us : Z) : pydatetime :=
  mkPy (toordinal d) (mkDatetime (hour (clock d)) (minute (clock d)) s us).

(** Line 20:
    [[
    return (dt + timedelta(seconds=30)).replace(second=0, microsecond=0)
    ]] *)
Definition nearest_minute (dt : pydatetime) : option pydatetime :=
  match add_seconds dt 30 with
  | Some d => Some (replace_second d 0 0)
  | None => None
  end.

(** A [datetime] value: the date within range, the fields within theirs. *)
Definition valid_pydatetime (d : pydatetime) : Prop :=
  1 <= toordinal d <= max_ordinal /\ valid_datetime (clock d).

(* ===================================================================== *)
(** ** Auxiliary notions for the properties below *)
(* ===================================================================== *)

(** Seconds since midnight. *)
Definition second_of_day (tn : datetime) : Z :=
  (hour tn * 60 + minute tn) * 60 + second tn.

(** Exhaustive check of a predicate over every (hour, minute). *)
Definition every_hm (P : Z -> Z -> bool) : bool :=
  forallb (fun h => forallb (fun m => P h m) (zrange 60)) (zrange 24).

(** At a whole minute the conversion is the integer hour*60 + minute. *)
Definition whole_minute_ok (h m : Z) : bool :=
  let v := convert_to_minutes (mkTime (mkDatetime h m 0 0)) in
  PrimFloat.eqb v (float_of_int (h * 60 + m)) &&
  match Q_of_float v with
  | Some q => Qeq_bool q (inject_Z (h * 60 + m))
  | None => false
  end.

(** The slots a day adds to the sunrise and the sunset list, by the number of
    its events: the two missing-value branches, the repaired day of three,
    and the plain assignment otherwise. *)
Definition day_slots (evs : list event) : list slot * list slot :=
  match evs with
  | [] => ([np_nan], [np_nan])
  | [(time, y)] =>
      if y then ([minutes (convert_to_minutes time)], [np_nan])
      else ([np_nan], [minutes (convert_to_minutes time)])
  | [_; _; (_, y3)] =>
      if y3 then (removelast (side_values true evs), side_values false evs)
      else (side_values true evs, removelast (side_values false evs))
  | _ => (side_values true evs, side_values false evs)
  end.

(** One location's variables after a day. *)
Definition after_day (evs : list event) (s : loc) : loc :=
  mkLoc (sr s ++ fst (day_slots evs)) (ss s ++ snd (day_slots evs))
        (flag_after evs (loop_flag s)).

(** Every query of the date loop returns. *)
Definition answered (lib : libraries) (places : list Topos) (ds : list Z)
  : Prop :=
  forall date where_, In date ds -> In where_ places ->
    exists evs, find_discrete lib where_ date = Ok evs.

(** Two states of the date loop that hold the same lists (their loop
    variables may differ). *)
Definition same_lists (a b : lists) : Prop :=
  dates a = dates b
  /\ sr (at_tx a) = sr (at_tx b) /\ ss (at_tx a) = ss (at_tx b)
  /\ sr (at_rx a) = sr (at_rx b) /\ ss (at_rx a) = ss (at_rx b)
  /\ sr (at_mp a) = sr (at_mp b) /\ ss (at_mp a) = ss (at_mp b).

(** An ephemeris that is never available. *)
Definition no_ephemeris (where_ : Topos) (date : Z) : result (list event) :=
  Raise (External "find_discrete").

Definition no_ephemeris_lib : libraries :=
  mkLibraries no_ephemeris sample_midpoint (fun _ => 2020)
              (fun d => str_of_int d) (fun _ _ => Ok tt).

(** One receiver and an empty date range (end date = start date). *)
Definition no_days : settings :=
  mkSettings "ZL1 Auckland" (-36.85) 174.77 0 737425 737425
    [ mkReceiver "W2 New York City, NY" 40.8 (-74.0) ].

(* ===================================================================== *)
(** ** What the ephemeris returns *)
(* ===================================================================== *)

(** [find_discrete] reports the instants at which the two-valued function
    [sunrise_sunset] changes, each with the value it changes to: between two
    sunrises there is a sunset, so the flags of neighbouring events differ. *)
Fixpoint alternating (evs : list event) : bool :=
  match evs with
  | (_, y1) :: (((_, y2) :: _) as rest) => xorb y1 y2 && alternating rest
  | _ => true
  end.

(** A day as the ephemeris answers it: alternating events, three at most (the
    third being the known artefact at the boundary of the search window). *)
Definition ephemeris_day (evs : list event) : bool :=
  (List.length evs <=? 3)%nat && alternating evs.

(** Every query of the date loop returns, and returns such a day. *)
Definition ephemeris_run (lib : libraries) (places : list Topos)
           (ds : list Z) : Prop :=
  forall date where_, In date ds -> In where_ places ->
    exists evs, find_discrete lib where_ date = Ok evs
                /\ ephemeris_day evs = true.

(* ===================================================================== *)
(** ** convert_to_minutes: range and accuracy *)
(* ===================================================================== *)

Lemma zrange_In (n : nat) (z : Z) : 0 <= z < Z.of_nat n -> In z (zrange n).
Proof.
  intros Hz. unfold zrange. apply in_map_iff. exists (Z.to_nat z).
  split; [lia | apply in_seq; lia].
Qed.

Lemma every_hms_spec (P : Z -> Z -> Z -> bool) :
  every_hms P = true ->
  forall h m s, 0 <= h < 24 -> 0 <= m < 60 -> 0 <= s < 60 -> P h m s = true.
Proof.
  intros H h m s Hh Hm Hs. unfold every_hms in H.
  rewrite forallb_forall in H.
  specialize (H h (zrange_In 24 h Hh)). rewrite forallb_forall in H.
  specialize (H m (zrange_In 60 m Hm)). rewrite forallb_forall in H.
  exact (H s (zrange_In 60 s Hs)).
Qed.

Lemma every_minutes_ok : every_hms minutes_ok = true.
Proof. vm_compute. reflexivity. Qed.

Lemma minutes_ok_valid (h m s : Z) :
  0 <= h < 24 -> 0 <= m < 60 -> 0 <= s < 60 -> minutes_ok h m s = true.
Proof. exact (every_hms_spec minutes_ok every_minutes_ok h m s). Qed.

(** The microsecond field plays no part in the result. *)
Lemma convert_to_minutes_fields (h m s us : Z) :
  convert_to_minutes (mkTime (mkDatetime h m s us))
  = convert_to_minutes (mkTime (mkDatetime h m s 0)).
Proof. reflexivity. Qed.

(** C8.  For every instant (a [datetime] with its fields in range),
    [convert_to_minutes] returns the float sum [hour*60 + minute + second/60]:
    a value in [0, 1440) that is within 2^-42 of the exact rational of that
    formula; an instant at 13:30:45 converts to exactly 810.75. *)
Theorem convert_to_minutes_spec (dt : Time) :
  valid_datetime (utc_datetime dt) ->
  let tn := utc_datetime dt in
  let v := convert_to_minutes dt in
  v = PrimFloat.add (float_of_int (hour tn * 60 + minute tn))
                    (PrimFloat.div (float_of_int (second tn)) (float_of_int 60))
  /\ PrimFloat.leb 0 v = true
  /\ PrimFloat.ltb v 1440 = true
  /\ (exists q, Q_of_float v = Some q
                /\ (Qabs (q - exact_minutes tn) <= 1 # (2 ^ 42))%Q)
  /\ (hour tn = 13 -> minute tn = 30 -> second tn = 45 ->
      v = 810.75%float).
Proof.
  destruct dt as [[h m s us]]. unfold valid_datetime. cbn [utc_datetime hour minute second microsecond].
  intros (Hh & Hm & Hs & _). cbv zeta.
  pose proof (minutes_ok_valid h m s Hh Hm Hs) as Hok.
  unfold minutes_ok in Hok. cbv zeta in Hok.
  rewrite <- (convert_to_minutes_fields h m s us) in Hok.
  change (exact_minutes (mkDatetime h m s 0))
    with (exact_minutes (mkDatetime h m s us)) in Hok.
  apply andb_true_iff in Hok as [Hrange Happrox].
  apply andb_true_iff in Hrange as [Hlo Hhi].
  apply andb_true_iff in Hlo as [_ Hlo].
  split; [reflexivity|].
  split; [exact Hlo|]. split; [exact Hhi|]. split.
  - destruct (Q_of_float _) as [q|]; [|discriminate].
    exists q. split; [reflexivity|]. apply Qle_bool_iff. exact Happrox.
  - intros -> -> ->. reflexivity.
Qed.

Lemma convert_to_minutes_spec_witness :
  valid_datetime (utc_datetime (at_hms 13 30 45))
  /\ convert_to_minutes (at_hms 13 30 45) = 810.75%float.
Proof.
  assert (Hv : valid_datetime (utc_datetime (at_hms 13 30 45)))
    by (unfold valid_datetime; simpl; lia).
  split; [exact Hv|].
  apply (convert_to_minutes_spec (at_hms 13 30 45) Hv); reflexivity.
Defined.

(** A valid instant never converts to NaN. *)
Lemma convert_to_minutes_not_nan (dt : Time) :
  valid_datetime (utc_datetime dt) ->
  is_missing (minutes (convert_to_minutes dt)) = false.
Proof.
  destruct dt as [[h m s us]]. unfold valid_datetime.
  cbn [utc_datetime hour minute second microsecond].
  intros (Hh & Hm & Hs & _).
  pose proof (minutes_ok_valid h m s Hh Hm Hs) as Hok.
  unfold minutes_ok in Hok. cbv zeta in Hok.
  rewrite <- (convert_to_minutes_fields h m s us) in Hok.
  repeat (apply andb_true_iff in Hok as [Hok _]).
  unfold is_missing. cbn [float_of]. apply negb_true_iff. exact Hok.
Qed.

Lemma convert_to_minutes_close (dt : Time) :
  valid_datetime (utc_datetime dt) ->
  exists q, Q_of_float (convert_to_minutes dt) = Some q
            /\ (Qabs (q - exact_minutes (utc_datetime dt)) <= 1 # (2 ^ 42))%Q.
Proof.
  destruct dt as [[h m s us]]. unfold valid_datetime.
  cbn [utc_datetime hour minute second microsecond].
  intros (Hh & Hm & Hs & _).
  pose proof (minutes_ok_valid h m s Hh Hm Hs) as Hok.
  unfold minutes_ok in Hok. cbv zeta in Hok.
  rewrite <- (convert_to_minutes_fields h m s us) in Hok.
  change (exact_minutes (mkDatetime h m s 0))
    with (exact_minutes (mkDatetime h m s us)) in Hok.
  apply andb_true_iff in Hok as [_ Happrox].
  destruct (Q_of_float _) as [q|]; [|discriminate].
  exists q. split; [reflexivity|]. apply Qle_bool_iff. exact Happrox.
Qed.

(* ===================================================================== *)
(** ** The per-day block *)
(* ===================================================================== *)

Lemma assign_spec (evs : list event) (s : loc) :
  assign evs s
  = mkLoc (sr s ++ side_values true evs) (ss s ++ side_values false evs)
          (flag_after evs (loop_flag s)).
Proof.
  revert s. induction evs as [|[time y] rest IH]; intros s.
  - destruct s; cbn. now rewrite !app_nil_r.
  - cbn [assign]. rewrite IH. destruct y; cbn; rewrite <- ?app_assoc; reflexivity.
Qed.

Lemma side_values_total (evs : list event) :
  (List.length (side_values true evs) + List.length (side_values false evs)
   = List.length evs)%nat.
Proof.
  unfold side_values. rewrite !length_map.
  induction evs as [|[time y] rest IH]; [reflexivity|].
  destruct y; cbn; lia.
Qed.

Lemma len_map {A B} (f : A -> B) (l : list A) : len (map f l) = len l.
Proof. unfold len. now rewrite length_map. Qed.

(** Days of two events or more take neither missing-value branch. *)
Lemma mark_missing_long (evs : list event) (s : loc) :
  (2 <= List.length evs)%nat -> mark_missing evs s = Ok s.
Proof.
  intros H. unfold mark_missing. cbv zeta. rewrite !len_map. unfold len.
  unfold event in *.
  destruct (_ =? 0) eqn:E0; [apply Z.eqb_eq in E0; lia|].
  destruct (_ =? 1) eqn:E1; [apply Z.eqb_eq in E1; lia|]. reflexivity.
Qed.

(** Only a day of three events is repaired. *)
Lemma repair_other (evs : list event) (s : loc) :
  List.length evs <> 3%nat -> repair evs s = Ok s.
Proof.
  intros H. unfold repair, len. unfold event in *.
  destruct (_ =? 3) eqn:E3; [apply Z.eqb_eq in E3; lia|]. reflexivity.
Qed.

Lemma pop_snoc {A} (l : list A) (x : A) : pop (l ++ [x]) = Ok (x, l).
Proof.
  induction l as [|y l IH]; [reflexivity|].
  cbn [app pop]. rewrite IH. destruct (l ++ [x]) eqn:E; [|reflexivity].
  destruct l; discriminate.
Qed.

Lemma pop_snoc2 {A} (l : list A) (x y : A) : pop (l ++ [x; y]) = Ok (y, l ++ [x]).
Proof.
  change (l ++ [x; y]) with (l ++ [x] ++ [y]). rewrite app_assoc. apply pop_snoc.
Qed.

(** A reconcilable day leaves one slot per side: the spec's sunrise and
    sunset of the day. *)
Lemma segment_day_reconcilable (evs : list event) (s : loc) :
  reconcilable evs = true ->
  segment_day evs s
  = Ok (mkLoc (sr s ++ [day_sunrise evs]) (ss s ++ [day_sunset evs])
              (flag_after evs (loop_flag s))).
Proof.
  destruct evs as [|[t1 y1] [|[t2 y2] [|[t3 y3] [|e4 rest]]]]; cbn [reconcilable].
  - reflexivity.
  - intros _. destruct y1; reflexivity.
  - intros H. destruct y1, y2; try discriminate H; reflexivity.
  - intros H. unfold segment_day.
    rewrite mark_missing_long by (cbn; lia). cbn [bind].
    rewrite assign_spec. unfold repair. cbn [len List.length Z.of_nat Z.eqb Pos.of_succ_nat Pos.succ Pos.eqb loop_flag flag_after fold_left snd].
    destruct y1, y2; try discriminate H; destruct y3;
      cbn [side_values filter map fst snd Bool.eqb sr ss];
      rewrite pop_snoc2; reflexivity.
  - discriminate.
Qed.

Lemma segment_days_app (a b : list (list event)) (s : loc) :
  segment_days (a ++ b) s = (s' <- segment_days a s ;; segment_days b s').
Proof.
  revert s. induction a as [|evs a IH]; intros s; [reflexivity|].
  cbn [app segment_days]. destruct (segment_day evs s) as [s1|e]; cbn [bind];
    [apply IH | reflexivity].
Qed.

Lemma segment_days_reconcilable (days : list (list event)) (s : loc) :
  forallb reconcilable days = true ->
  exists f,
    segment_days days s
    = Ok (mkLoc (sr s ++ map day_sunrise days) (ss s ++ map day_sunset days) f).
Proof.
  revert s. induction days as [|evs days IH]; intros s H.
  - exists (loop_flag s). destruct s; cbn. now rewrite !app_nil_r.
  - cbn [forallb] in H. apply andb_true_iff in H as [Hd Hr].
    cbn [segment_days]. rewrite (segment_day_reconcilable evs s Hd). cbn [bind].
    destruct (IH (mkLoc (sr s ++ [day_sunrise evs]) (ss s ++ [day_sunset evs])
                        (flag_after evs (loop_flag s))) Hr) as [f Hf].
    exists f. rewrite Hf. cbn [sr ss map]. now rewrite <- !app_assoc.
Qed.

Lemma unreconciled_length (evs : list event) :
  unreconciled evs = true ->
  (2 <= List.length evs)%nat /\ List.length evs <> 3%nat.
Proof.
  destruct evs as [|[t1 y1] [|[t2 y2] [|[t3 y3] [|e4 rest]]]];
    cbn [unreconciled List.length Nat.leb]; try discriminate; intros _; lia.
Qed.

Lemma segment_day_unreconciled (evs : list event) (s : loc) :
  unreconciled evs = true ->
  segment_day evs s
  = Ok (mkLoc (sr s ++ side_values true evs) (ss s ++ side_values false evs)
              (flag_after evs (loop_flag s))).
Proof.
  intros H. destruct (unreconciled_length evs H) as [H2 H3].
  unfold segment_day. rewrite (mark_missing_long evs s H2). cbn [bind].
  rewrite (repair_other evs _ H3). now rewrite assign_spec.
Qed.

(** On any day of three events the repair pops the value of the last event,
    from the list its flag selects. *)
Lemma three_events_discard_last (t1 t2 t3 : Time) (y1 y2 y3 : bool) (s : loc) :
  let evs := [(t1, y1); (t2, y2); (t3, y3)] in
  exists kept,
    segment_day evs s = Ok kept
    /\ (if y3
        then pop (sr (assign evs s))
             = Ok (minutes (convert_to_minutes t3), sr kept)
             /\ ss (assign evs s) = ss kept
        else pop (ss (assign evs s))
             = Ok (minutes (convert_to_minutes t3), ss kept)
             /\ sr (assign evs s) = sr kept).
Proof.
  cbv zeta. unfold segment_day.
  rewrite mark_missing_long by (cbn; lia). cbn [bind].
  rewrite assign_spec. unfold repair.
  cbn [len List.length Z.of_nat Z.eqb Pos.of_succ_nat Pos.succ Pos.eqb
       loop_flag flag_after fold_left snd].
  destruct y1, y2, y3; cbn [side_values filter map fst snd Bool.eqb sr ss];
    rewrite ?app_nil_r;
    first [rewrite pop_snoc2 | rewrite pop_snoc
          | change (sr s ++ [minutes (convert_to_minutes t1);
                             minutes (convert_to_minutes t2);
                             minutes (convert_to_minutes t3)])
              with (sr s ++ [minutes (convert_to_minutes t1);
                             minutes (convert_to_minutes t2)]
                    ++ [minutes (convert_to_minutes t3)]);
            rewrite app_assoc, pop_snoc
          | change (ss s ++ [minutes (convert_to_minutes t1);
                             minutes (convert_to_minutes t2);
                             minutes (convert_to_minutes t3)])
              with (ss s ++ [minutes (convert_to_minutes t1);
                             minutes (convert_to_minutes t2)]
                    ++ [minutes (convert_to_minutes t3)]);
            rewrite app_assoc, pop_snoc];
    cbn [bind]; eexists; (split; [reflexivity|]); cbn [sr ss]; split; reflexivity.
Qed.

(** C7.  A day with no event appends the missing sentinel to both lists. *)
Theorem zero_events_both_missing (s : loc) :
  segment_day [] s
  = Ok (mkLoc (sr s ++ [np_nan]) (ss s ++ [np_nan]) (loop_flag s))
  /\ is_missing np_nan = true.
Proof. split; reflexivity. Qed.

Lemma convert_to_minutes_in_range (dt : Time) :
  valid_datetime (utc_datetime dt) ->
  PrimFloat.leb 0 (convert_to_minutes dt) = true
  /\ PrimFloat.ltb (convert_to_minutes dt) 1440 = true.
Proof.
  destruct dt as [[h m s us]]. unfold valid_datetime.
  cbn [utc_datetime hour minute second microsecond].
  intros (Hh & Hm & Hs & _).
  pose proof (minutes_ok_valid h m s Hh Hm Hs) as Hok.
  unfold minutes_ok in Hok. cbv zeta in Hok.
  rewrite <- (convert_to_minutes_fields h m s us) in Hok.
  apply andb_true_iff in Hok as [Hok _].
  apply andb_true_iff in Hok as [Hok Hhi].
  apply andb_true_iff in Hok as [_ Hlo].
  split; assumption.
Qed.

(** C6.  A day with one event appends that event's minute of day to the list
    its flag selects and the missing sentinel to the other list.  The value
    appended is not missing: it is the float of hour*60 + minute + second/60
    of the event, in [0, 1440) and within 2^-42 of that exact number. *)
Theorem one_event_fills_its_side (time : Time) (y : bool) (s : loc) :
  valid_datetime (utc_datetime time) ->
  let v := convert_to_minutes time in
  segment_day [(time, y)] s
  = Ok (if y
        then mkLoc (sr s ++ [minutes v]) (ss s ++ [np_nan]) (Some true)
        else mkLoc (sr s ++ [np_nan]) (ss s ++ [minutes v]) (Some false))
  /\ is_missing np_nan = true
  /\ is_missing (minutes v) = false
  /\ PrimFloat.leb 0 v = true
  /\ PrimFloat.ltb v 1440 = true
  /\ (exists q, Q_of_float v = Some q
                /\ (Qabs (q - exact_minutes (utc_datetime time))
                    <= 1 # (2 ^ 42))%Q).
Proof.
  intros Hv. cbv zeta.
  split; [destruct y; reflexivity|]. split; [reflexivity|].
  split; [apply convert_to_minutes_not_nan; exact Hv|].
  destruct (convert_to_minutes_in_range time Hv) as [Hlo Hhi].
  split; [exact Hlo|]. split; [exact Hhi|].
  apply convert_to_minutes_close. exact Hv.
Qed.

Lemma one_event_fills_its_side_witness :
  segment_day [(at_hms 13 30 45, true)] (mkLoc [] [] None)
  = Ok (mkLoc [minutes 810.75] [np_nan] (Some true))
  /\ segment_day [(at_hms 18 20 15, false)] (mkLoc [minutes 370.5] [] None)
     = Ok (mkLoc [minutes 370.5; np_nan] [minutes 1100.25] (Some false)).
Proof.
  split.
  - refine (proj1 (one_event_fills_its_side (at_hms 13 30 45) true
                     (mkLoc [] [] None) _)).
    unfold valid_datetime; simpl; lia.
  - refine (proj1 (one_event_fills_its_side (at_hms 18 20 15) false
                     (mkLoc [minutes 370.5] [] None) _)).
    unfold valid_datetime; simpl; lia.
Defined.

(** C5.  A day with two events, one rising and one not, appends exactly one
    value to each list: the minute of day of the rising event to the sunrise
    list and that of the other event to the sunset list; neither is missing. *)
Theorem two_events_one_each (t1 t2 : Time) (y1 y2 : bool) (s : loc) :
  y1 <> y2 ->
  valid_datetime (utc_datetime t1) ->
  valid_datetime (utc_datetime t2) ->
  let rise := minutes (convert_to_minutes (if y1 then t1 else t2)) in
  let set := minutes (convert_to_minutes (if y1 then t2 else t1)) in
  segment_day [(t1, y1); (t2, y2)] s
  = Ok (mkLoc (sr s ++ [rise]) (ss s ++ [set]) (Some y2))
  /\ is_missing rise = false
  /\ is_missing set = false.
Proof.
  intros Hy H1 H2. cbv zeta.
  destruct y1, y2; try (exfalso; apply Hy; reflexivity);
    (split; [reflexivity|]); split; now apply convert_to_minutes_not_nan.
Qed.

Lemma two_events_one_each_witness :
  segment_day [(at_hms 6 10 30, true); (at_hms 18 20 15, false)] (mkLoc [] [] None)
  = Ok (mkLoc [minutes 370.5] [minutes 1100.25] (Some false)).
Proof.
  refine (proj1 (two_events_one_each (at_hms 6 10 30) (at_hms 18 20 15)
                   true false (mkLoc [] [] None) _ _ _)).
  - discriminate.
  - unfold valid_datetime; simpl; lia.
  - unfold valid_datetime; simpl; lia.
Defined.

(** C1.  A day for which the ephemeris returns three events (they alternate:
    rise, set, rise or set, rise, set) keeps exactly one value per side after
    the repair: of the first two events, the rising one's minute of day on the
    sunrise list and the other's on the sunset list, neither missing.  The
    value the repair discards is the last event's: it is popped from the list
    that event's flag selects, and the other list is left as the assignment
    loop built it. *)
Theorem three_events_repair (t1 t2 t3 : Time) (y1 y2 y3 : bool) (s : loc) :
  alternating [(t1, y1); (t2, y2); (t3, y3)] = true ->
  valid_datetime (utc_datetime t1) ->
  valid_datetime (utc_datetime t2) ->
  valid_datetime (utc_datetime t3) ->
  let evs := [(t1, y1); (t2, y2); (t3, y3)] in
  let before := assign evs s in
  let rise := minutes (convert_to_minutes (if y1 then t1 else t2)) in
  let set := minutes (convert_to_minutes (if y1 then t2 else t1)) in
  let after := mkLoc (sr s ++ [rise]) (ss s ++ [set]) (Some y3) in
  segment_day evs s = Ok after
  /\ one_value_each evs s
  /\ is_missing rise = false
  /\ is_missing set = false
  /\ is_missing (minutes (convert_to_minutes t3)) = false
  /\ (if y3
      then pop (sr before) = Ok (minutes (convert_to_minutes t3), sr after)
           /\ ss before = ss after
      else pop (ss before) = Ok (minutes (convert_to_minutes t3), ss after)
           /\ sr before = sr after).
Proof.
  intros Halt V1 V2 V3. cbv zeta.
  cbn [alternating] in Halt. rewrite andb_true_r in Halt.
  apply andb_true_iff in Halt as [H12 H23].
  assert (Hseg : segment_day [(t1, y1); (t2, y2); (t3, y3)] s
                 = Ok (mkLoc
                         (sr s ++ [minutes (convert_to_minutes (if y1 then t1 else t2))])
                         (ss s ++ [minutes (convert_to_minutes (if y1 then t2 else t1))])
                         (Some y3))).
  { rewrite segment_day_reconcilable by exact H12.
    destruct y1, y2; try discriminate H12; reflexivity. }
  split; [exact Hseg|]. split.
  { unfold one_value_each. eexists _, _, _. exact Hseg. }
  split; [destruct y1; now apply convert_to_minutes_not_nan|].
  split; [destruct y1; now apply convert_to_minutes_not_nan|].
  split; [now apply convert_to_minutes_not_nan|].
  rewrite assign_spec.
  destruct y1, y2; try discriminate H12; destruct y3; try discriminate H23;
    cbn [side_values filter map fst snd Bool.eqb sr ss];
    (split; [apply pop_snoc2 | reflexivity]).
Qed.

Lemma three_events_repair_witness :
  segment_day [(at_hms 0 0 30, true); (at_hms 12 0 0, false); (at_hms 23 59 30, true)]
              (mkLoc [] [] None)
  = Ok (mkLoc [minutes 0.5] [minutes 720] (Some true))
  /\ pop (sr (assign [(at_hms 0 0 30, true); (at_hms 12 0 0, false);
                      (at_hms 23 59 30, true)] (mkLoc [] [] None)))
     = Ok (minutes 1439.5, [minutes 0.5]).
Proof.
  assert (V : forall h m sec, 0 <= h < 24 -> 0 <= m < 60 -> 0 <= sec < 60 ->
                              valid_datetime (utc_datetime (at_hms h m sec)))
    by (intros; unfold valid_datetime; simpl; lia).
  pose proof (three_events_repair (at_hms 0 0 30) (at_hms 12 0 0)
                (at_hms 23 59 30) true false true (mkLoc [] [] None)
                eq_refl
                (V 0 0 30 ltac:(lia) ltac:(lia) ltac:(lia))
                (V 12 0 0 ltac:(lia) ltac:(lia) ltac:(lia))
                (V 23 59 30 ltac:(lia) ltac:(lia) ltac:(lia))) as H.
  cbv zeta in H. destruct H as (Hseg & _ & _ & _ & _ & Hpop & _).
  split; [exact Hseg | exact Hpop].
Defined.

(** C10 (as amended).  A day with two events of one flag, or with four events
    or more, raises no error and is not repaired: every event's minute of day
    is appended to the list of its flag and nothing else happens.  The two
    lists receive as many values as the day has events, so one of them
    receives two or more; with two events of one flag the other list receives
    none and the lengths diverge by two.  Later days are appended after these
    values: between reconcilable days, the day's values sit where one slot
    was due, and every later slot is displaced in each list that did not
    receive exactly one value. *)
Theorem unreconciled_day_unrepaired (evs : list event) (s : loc) :
  unreconciled evs = true ->
  let rises := side_values true evs in
  let sets := side_values false evs in
  segment_day evs s
  = Ok (mkLoc (sr s ++ rises) (ss s ++ sets) (flag_after evs (loop_flag s)))
  /\ (List.length rises + List.length sets = List.length evs)%nat
  /\ (2 <= List.length rises \/ 2 <= List.length sets)%nat
  /\ (List.length evs = 2%nat -> one_sided evs s)
  /\ (forall pre post s0,
         forallb reconcilable pre = true ->
         forallb reconcilable post = true ->
         exists f,
           segment_days (pre ++ evs :: post) s0
           = Ok (mkLoc
                   (sr s0 ++ map day_sunrise pre ++ rises ++ map day_sunrise post)
                   (ss s0 ++ map day_sunset pre ++ sets ++ map day_sunset post)
                   f)).
Proof.
  intros H. cbv zeta.
  pose proof (segment_day_unreconciled evs s H) as Hseg.
  pose proof (side_values_total evs) as Htot.
  destruct (unreconciled_length evs H) as [H2 H3].
  split; [exact Hseg|]. split; [exact Htot|]. split; [|split].
  - destruct evs as [|[t1 y1] [|[t2 y2] [|e3 rest]]]; cbn [List.length] in *; try lia.
    cbn [unreconciled] in H. destruct y1, y2; try discriminate H; cbn; lia.
  - intros Hlen. unfold one_sided. eexists. split; [exact Hseg|].
    destruct evs as [|[t1 y1] [|[t2 y2] [|e3 rest]]]; try discriminate Hlen.
    cbn [unreconciled] in H. cbn [sr ss].
    destruct y1, y2; try discriminate H; cbn; rewrite ?length_app, ?app_nil_r; cbn; lia.
  - intros pre post s0 Hpre Hpost.
    rewrite segment_days_app.
    destruct (segment_days_reconcilable pre s0 Hpre) as [f1 ->]. cbn [bind segment_days].
    rewrite (segment_day_unreconciled evs _ H). cbn [bind sr ss loop_flag].
    destruct (segment_days_reconcilable post
                (mkLoc ((sr s0 ++ map day_sunrise pre) ++ side_values true evs)
                       ((ss s0 ++ map day_sunset pre) ++ side_values false evs)
                       (flag_after evs f1)) Hpost) as [f2 ->].
    exists f2. cbn [sr ss]. now rewrite <- !app_assoc.
Qed.

Lemma unreconciled_day_unrepaired_witness :
  segment_day [(at_hms 6 10 30, true); (at_hms 6 10 45, true)] (mkLoc [] [] None)
  = Ok (mkLoc [minutes 370.5; minutes 370.75] [] (Some true)).
Proof.
  refine (proj1 (unreconciled_day_unrepaired
                   [(at_hms 6 10 30, true); (at_hms 6 10 45, true)]
                   (mkLoc [] [] None) _)).
  reflexivity.
Defined.

(** C10 as stated fails for four events: rise, set, rise, set is a day of four
    events that appends two values to each list, so neither list is left
    without a value and the two lengths stay equal. *)
Lemma four_alternating_events_balanced :
  unreconciled [(at_hms 1 0 0, true); (at_hms 2 0 0, false);
                (at_hms 22 0 0, true); (at_hms 23 0 0, false)] = true
  /\ segment_day [(at_hms 1 0 0, true); (at_hms 2 0 0, false);
                  (at_hms 22 0 0, true); (at_hms 23 0 0, false)] (mkLoc [] [] None)
     = Ok (mkLoc [minutes 60; minutes 1320] [minutes 120; minutes 1380] (Some false))
  /\ ~ one_sided [(at_hms 1 0 0, true); (at_hms 2 0 0, false);
                  (at_hms 22 0 0, true); (at_hms 23 0 0, false)] (mkLoc [] [] None).
Proof.
  split; [reflexivity|]. split; [reflexivity|].
  intros (s' & Hs & Hlen). vm_compute in Hs. injection Hs as <-.
  cbn in Hlen. lia.
Qed.

(* ===================================================================== *)
(** ** The date loop *)
(* ===================================================================== *)

Section DateLoop.

Variable cfg : settings.
Variable lib : libraries.

(** With its three queries answered, the body of the date loop is the per-day
    block run once per location. *)
Lemma date_body_segments (rxloc mploc : Topos) (st : lists) (date : Z)
      (tx rx mp : list event) (t2 r2 m2 : loc) :
  find_discrete lib (txloc cfg) date = Ok tx ->
  find_discrete lib rxloc date = Ok rx ->
  find_discrete lib mploc date = Ok mp ->
  segment_day tx (at_tx st) = Ok t2 ->
  segment_day rx (at_rx st) = Ok r2 ->
  segment_day mp (at_mp st) = Ok m2 ->
  date_body cfg lib rxloc mploc st date
  = Ok (mkLists (dates st ++ [utc_strftime lib date]) t2 r2 m2).
Proof.
  intros Qt Qr Qm St Sr Sm. unfold date_body, segment_day in *. cbv zeta.
  rewrite Qt. cbn [bind].
  destruct (mark_missing tx (at_tx st)) as [t1|]; [|discriminate St].
  cbn [bind] in *. rewrite Qr. cbn [bind].
  destruct (mark_missing rx (at_rx st)) as [r1|]; [|discriminate Sr].
  cbn [bind] in *. rewrite Qm. cbn [bind].
  destruct (mark_missing mp (at_mp st)) as [m1|]; [|discriminate Sm].
  cbn [bind] in *. rewrite St, Sr, Sm. reflexivity.
Qed.

Lemma events_at_found (where_ : Topos) (date : Z) (evs : list event) :
  find_discrete lib where_ date = Ok evs -> events_at lib where_ date = evs.
Proof. intros H. unfold events_at. now rewrite H. Qed.

Lemma for_dates_reconcilable (rxloc mploc : Topos) (ds : list Z) (st0 : lists) :
  reconcilable_run lib [txloc cfg; rxloc; mploc] ds ->
  exists st,
    for_dates cfg lib rxloc mploc ds st0 = Ok st
    /\ dates st = dates st0 ++ map (utc_strftime lib) ds
    /\ sr (at_tx st) = sr (at_tx st0) ++ sunrise_series lib (txloc cfg) ds
    /\ ss (at_tx st) = ss (at_tx st0) ++ sunset_series lib (txloc cfg) ds
    /\ sr (at_rx st) = sr (at_rx st0) ++ sunrise_series lib rxloc ds
    /\ ss (at_rx st) = ss (at_rx st0) ++ sunset_series lib rxloc ds
    /\ sr (at_mp st) = sr (at_mp st0) ++ sunrise_series lib mploc ds
    /\ ss (at_mp st) = ss (at_mp st0) ++ sunset_series lib mploc ds.
Proof.
  revert st0. induction ds as [|date ds IH]; intros st0 Hrun.
  - exists st0. cbn. now rewrite !app_nil_r.
  - destruct (Hrun date (txloc cfg)) as (tx & Qt & Rt); [now left | now left |].
    destruct (Hrun date rxloc) as (rx & Qr & Rr); [now left | right; now left |].
    destruct (Hrun date mploc) as (mp & Qm & Rm);
      [now left | right; right; now left |].
    cbn [for_dates].
    rewrite (date_body_segments rxloc mploc st0 date tx rx mp _ _ _ Qt Qr Qm
               (segment_day_reconcilable tx _ Rt)
               (segment_day_reconcilable rx _ Rr)
               (segment_day_reconcilable mp _ Rm)).
    cbn [bind].
    edestruct IH as (st & Hst & Hd & H1 & H2 & H3 & H4 & H5 & H6).
    { intros d w Hd Hw. apply Hrun; [now right | exact Hw]. }
    exists st. split; [exact Hst|].
    rewrite Hd, H1, H2, H3, H4, H5, H6.
    unfold sunrise_series, sunset_series. cbn [dates at_tx at_rx at_mp sr ss map].
    rewrite (events_at_found _ _ _ Qt), (events_at_found _ _ _ Qr),
      (events_at_found _ _ _ Qm).
    rewrite <- !app_assoc. repeat split; reflexivity.
Qed.

Lemma date_list_length :
  List.length (date_list cfg) = Z.to_nat (end_date cfg - start_date cfg).
Proof. unfold date_list, zrange. now rewrite !length_map, length_seq. Qed.

(** A day as the ephemeris answers it is a reconcilable day. *)
Lemma ephemeris_day_reconcilable (evs : list event) :
  ephemeris_day evs = true -> reconcilable evs = true.
Proof.
  unfold ephemeris_day.
  destruct evs as [|[t1 y1] [|[t2 y2] [|[t3 y3] [|e4 rest]]]];
    cbn [List.length Nat.leb alternating reconcilable andb];
    try reflexivity; try discriminate;
    intros H; apply andb_true_iff in H as [H _]; exact H.
Qed.

(** C2.  For every date range the loop processes (every ephemeris query
    returns, with a day of alternating events, three at most), it ends with a
    sunrise list and a sunset list per location that have equal length, the
    number of days of the range: every day contributes exactly one slot to
    each list, the minute of day of its sunrise (sunset) or the missing
    sentinel when it has none, and the slots are in date order, slot i being
    day i's. *)
Theorem series_follow_dates (rxloc mploc : Topos) (vars : loopvars) :
  ephemeris_run lib [txloc cfg; rxloc; mploc] (date_list cfg) ->
  exists st,
    for_dates cfg lib rxloc mploc (date_list cfg) (fresh_lists vars) = Ok st
    /\ dates st = map (utc_strftime lib) (date_list cfg)
    /\ sr (at_tx st) = sunrise_series lib (txloc cfg) (date_list cfg)
    /\ ss (at_tx st) = sunset_series lib (txloc cfg) (date_list cfg)
    /\ sr (at_rx st) = sunrise_series lib rxloc (date_list cfg)
    /\ ss (at_rx st) = sunset_series lib rxloc (date_list cfg)
    /\ sr (at_mp st) = sunrise_series lib mploc (date_list cfg)
    /\ ss (at_mp st) = sunset_series lib mploc (date_list cfg)
    /\ Forall (fun l => List.length l = Z.to_nat (end_date cfg - start_date cfg))
              [sr (at_tx st); ss (at_tx st); sr (at_rx st); ss (at_rx st);
               sr (at_mp st); ss (at_mp st)]
    /\ List.length (dates st) = Z.to_nat (end_date cfg - start_date cfg)
    /\ (forall where_ date,
           find (fun e => snd e) (events_at lib where_ date) = None ->
           day_sunrise (events_at lib where_ date) = np_nan)
    /\ (forall where_ date,
           find (fun e => negb (snd e)) (events_at lib where_ date) = None ->
           day_sunset (events_at lib where_ date) = np_nan).
Proof.
  intros Hrun.
  assert (Hrec : reconcilable_run lib [txloc cfg; rxloc; mploc] (date_list cfg)).
  { intros date w Hd Hw. destruct (Hrun date w Hd Hw) as (evs & Hq & He).
    exists evs. split; [exact Hq | now apply ephemeris_day_reconcilable]. }
  destruct (for_dates_reconcilable rxloc mploc (date_list cfg) (fresh_lists vars) Hrec)
    as (st & Hst & Hd & H1 & H2 & H3 & H4 & H5 & H6).
  cbn [fresh_lists dates at_tx at_rx at_mp sr ss app] in *.
  exists st. repeat (split; [assumption|]).
  split; [|split; [|split]].
  - rewrite H1, H2, H3, H4, H5, H6. unfold sunrise_series, sunset_series.
    repeat constructor; rewrite length_map; apply date_list_length.
  - rewrite Hd, length_map. apply date_list_length.
  - intros w d Hnone. unfold day_sunrise. now rewrite Hnone.
  - intros w d Hnone. unfold day_sunset. now rewrite Hnone.
Qed.

End DateLoop.

Lemma series_follow_dates_witness :
  exists st,
    for_dates one_receiver sample_lib (mkTopos 40.8 (-74.0) 0)
              (mkTopos 1.975 50.385 0) (date_list one_receiver)
              (fresh_lists (mkVars None None None)) = Ok st
    /\ sr (at_tx st) = [minutes 370.5; minutes 370.5]
    /\ ss (at_tx st) = [minutes 1100.25; minutes 1100.25].
Proof.
  destruct (series_follow_dates one_receiver sample_lib (mkTopos 40.8 (-74.0) 0)
              (mkTopos 1.975 50.385 0) (mkVars None None None))
    as (st & Hst & _ & H1 & H2 & _).
  - intros date w _ Hw. exists [(at_hms 6 10 30, true); (at_hms 18 20 15, false)].
    destruct Hw as [<-|[<-|[<-|[]]]]; split; reflexivity.
  - exists st. split; [exact Hst|]. split; [exact H1 | exact H2].
Defined.

(* ===================================================================== *)
(** ** Fill polarity *)
(* ===================================================================== *)

(** Python's list order looks past a common prefix of equal items. *)
Lemma list_le_first_difference (p1 p2 : list slot) (a b : slot)
      (r1 r2 : list slot) :
  Forall2 (fun x y => item_eq x y = true) p1 p2 ->
  item_eq a b = false ->
  list_le (p1 ++ a :: r1) (p2 ++ b :: r2) = item_le a b.
Proof.
  intros Hp Hab. induction Hp as [|x y p1 p2 Hxy _ IH].
  - cbn. now rewrite Hab.
  - cbn. now rewrite Hxy.
Qed.

(** C3 (as amended).  The fill is decided once for the whole series, by
    Python's order on the two lists: at the first day where the sunrise and
    sunset items differ, "normal" (two night regions: sunset up to 1440 and
    sunrise down to 0) if and only if that sunrise value is at most that
    sunset value, "inverted" (one region between sunset and sunrise)
    otherwise.  When the first items differ, that day is the first one and
    the rule is the one on the first values. *)
Theorem fill_polarity_by_first_difference
        (p1 p2 : list slot) (a b : slot) (r1 r2 : list slot) :
  Forall2 (fun x y => item_eq x y = true) p1 p2 ->
  item_eq a b = false ->
  let sunrise := p1 ++ a :: r1 in
  let sunset := p2 ++ b :: r2 in
  (polarity_of sunrise sunset = Normal <-> item_le a b = true)
  /\ (polarity_of sunrise sunset = Inverted <-> item_le a b = false)
  /\ (polarity_of sunrise sunset = Normal ->
      regions (tx_fill sunrise sunset)
      = [(sunset, Level 1440); (sunrise, Level 0)]
      /\ regions (rx_fill sunrise sunset)
         = [(sunset, Level 1440); (sunrise, Level 0)])
  /\ (polarity_of sunrise sunset = Inverted ->
      regions (tx_fill sunrise sunset) = [(sunset, Curve sunrise)]
      /\ regions (rx_fill sunrise sunset) = [(sunset, Curve sunrise)])
  /\ (p1 = [] ->
      (polarity_of sunrise sunset = Normal
       <-> first_value_rule sunrise sunset = true)).
Proof.
  intros Hp Hab. cbv zeta.
  pose proof (list_le_first_difference p1 p2 a b r1 r2 Hp Hab) as Hle.
  unfold polarity_of, tx_fill, rx_fill. rewrite Hle.
  assert (Hfirst : p1 = [] ->
                   first_value_rule (p1 ++ a :: r1) (p2 ++ b :: r2) = item_le a b).
  { intros ->. inversion Hp; subst. reflexivity. }
  destruct (item_le a b) eqn:Eab.
  - split; [split; reflexivity|]. split; [split; discriminate|].
    split; [intros _; split; reflexivity|]. split; [discriminate|].
    intros E. rewrite (Hfirst E). split; reflexivity.
  - split; [split; discriminate|]. split; [split; reflexivity|].
    split; [discriminate|]. split; [intros _; split; reflexivity|].
    intros E. rewrite (Hfirst E). split; discriminate.
Qed.

Lemma fill_polarity_by_first_difference_witness :
  polarity_of [minutes 370.5; minutes 371] [minutes 1100.25; minutes 1099] = Normal
  /\ polarity_of [np_nan; minutes 1100.25] [np_nan; minutes 370.5] = Inverted.
Proof.
  split.
  - exact (proj2 (proj1 (fill_polarity_by_first_difference [] []
                           (minutes 370.5) (minutes 1100.25)
                           [minutes 371] [minutes 1099]
                           (Forall2_nil _) eq_refl)) eq_refl).
  - exact (proj2 (proj1 (proj2 (fill_polarity_by_first_difference
                                  [np_nan] [np_nan]
                                  (minutes 1100.25) (minutes 370.5) [] []
                                  (Forall2_cons np_nan np_nan (eq_refl true)
                                     (Forall2_nil _))
                                  eq_refl))) eq_refl).
Defined.

(** C3 as stated fails when the first values do not differ.  A series that
    starts with a day without events has the same [np.nan] object first on
    both lists, and the second day decides: the fill is normal although
    nan <= nan is false.  A series whose first sunrise and sunset are the same
    minute is decided by the second day too: inverted here, although the first
    sunrise is at most the first sunset. *)
Lemma first_values_do_not_decide :
  (polarity_of [np_nan; minutes 370.5] [np_nan; minutes 1100.25] = Normal
   /\ first_value_rule [np_nan; minutes 370.5] [np_nan; minutes 1100.25] = false)
  /\ (polarity_of [minutes 720; minutes 1100.25] [minutes 720; minutes 370.5]
      = Inverted
      /\ first_value_rule [minutes 720; minutes 1100.25]
                          [minutes 720; minutes 370.5] = true).
Proof. repeat split; reflexivity. Qed.

(* ===================================================================== *)
(** ** The receiver loop *)
(* ===================================================================== *)

Section ReceiverLoop.

Variable cfg : settings.
Variable lib : libraries.

(** When no receiver fails, the loop saves one chart per receiver. *)
Lemma receiver_loop_all (rs : list receiver) (vars vars' : loopvars)
      (saved cs : list chart) :
  process_all cfg lib rs vars = Ok (vars', cs) ->
  receiver_loop cfg lib rs vars saved = (saved ++ cs, Ok tt)
  /\ List.length cs = List.length rs.
Proof.
  revert vars saved cs. induction rs as [|country rest IH]; intros vars saved cs H.
  - injection H as <- <-. now rewrite app_nil_r.
  - cbn [process_all receiver_loop] in *.
    destruct (process_receiver cfg lib vars country) as [[v1 c]|]; [|discriminate H].
    cbn [bind] in H.
    destruct (process_all cfg lib rest v1) as [[v2 cs']|] eqn:E; [|discriminate H].
    cbn [bind] in H. injection H as <- <-.
    destruct (IH v1 (saved ++ [c]) cs' E) as [-> Hlen].
    rewrite <- app_assoc. cbn. now rewrite Hlen.
Qed.

(** C4 (as amended).  An error in the processing of one receiver is caught
    nowhere: the receiver loop ends with that error.  The charts of the
    receivers before it in the list are saved; the failing receiver and every
    receiver after it gets no chart, whatever the list holds after it. *)
Theorem receiver_loop_stops_at_error
        (pre post : list receiver) (country : receiver)
        (vars vars1 : loopvars) (saved cs : list chart) (e : exn) :
  process_all cfg lib pre vars = Ok (vars1, cs) ->
  process_receiver cfg lib vars1 country = Raise e ->
  receiver_loop cfg lib (pre ++ country :: post) vars saved
  = (saved ++ cs, Raise e)
  /\ List.length cs = List.length pre.
Proof.
  revert vars saved cs. induction pre as [|r pre IH]; intros vars saved cs Hpre Herr.
  - injection Hpre as <- <-. cbn [app receiver_loop]. rewrite Herr.
    now rewrite app_nil_r.
  - cbn [process_all app receiver_loop] in *.
    destruct (process_receiver cfg lib vars r) as [[v1 c]|]; [|discriminate Hpre].
    cbn [bind] in Hpre.
    destruct (process_all cfg lib pre v1) as [[v2 cs']|] eqn:E; [|discriminate Hpre].
    cbn [bind] in Hpre. injection Hpre as -> <-.
    destruct (IH v1 (saved ++ [c]) cs' E Herr) as [-> Hlen].
    rewrite <- app_assoc. cbn. now rewrite Hlen.
Qed.

End ReceiverLoop.

Lemma receiver_loop_stops_at_error_witness :
  main two_receivers sample_lib = ([], Raise (External "find_discrete")).
Proof.
  refine (proj1 (receiver_loop_stops_at_error two_receivers sample_lib
                   [] [mkReceiver "W2 New York City, NY" 40.8 (-74.0)]
                   (mkReceiver "North Pole" 90 0)
                   (mkVars None None None) (mkVars None None None) [] []
                   (External "find_discrete") _ _)).
  - reflexivity.
  - vm_compute. reflexivity.
Defined.

(** C4 as stated fails: the ephemeris query fails for the first receiver, the
    second one alone would get its chart, and the script ends at the first
    with no chart saved. *)
Lemma later_receivers_not_processed :
  process_receiver two_receivers sample_lib (mkVars None None None)
                   (mkReceiver "North Pole" 90 0)
  = Raise (External "find_discrete")
  /\ (exists vars c,
         process_receiver two_receivers sample_lib (mkVars None None None)
                          (mkReceiver "W2 New York City, NY" 40.8 (-74.0))
         = Ok (vars, c)
         /\ filename c = "2020_ZL1 Auckland_W2_New_York_City_NY"%string)
  /\ main two_receivers sample_lib = ([], Raise (External "find_discrete")).
Proof.
  split; [vm_compute; reflexivity|]. split; [|vm_compute; reflexivity].
  eexists _, _. split; [vm_compute; reflexivity|]. reflexivity.
Qed.

(* ===================================================================== *)
(** ** The chart's file name *)
(* ===================================================================== *)

Lemma replace_cons_other (old c : ascii) (new s : string) :
  Ascii.eqb c old = false ->
  replace old new (String c s) = String c (replace old new s).
Proof. intros H. cbn [replace]. now rewrite H. Qed.

Lemma replace_cons_drop (old : ascii) (s : string) :
  replace old "" (String old s) = replace old "" s.
Proof. cbn [replace]. now rewrite Ascii.eqb_refl. Qed.

(** The four chained replacements act on each character on its own. *)
Lemma prefix_sanitize (name : string) : prefix name = sanitize name.
Proof.
  induction name as [|c name IH]; [reflexivity|].
  unfold prefix in *. cbn [sanitize]. unfold sanitize_char.
  destruct (Ascii.eqb c " ") eqn:Esp.
  - apply Ascii.eqb_eq in Esp. subst c. cbn. now rewrite IH.
  - rewrite (replace_cons_other " " c "_" name Esp).
    destruct (Ascii.eqb c ".") eqn:Edot.
    + apply Ascii.eqb_eq in Edot. subst c. rewrite replace_cons_drop.
      cbn [orb append]. exact IH.
    + rewrite (replace_cons_other "." c "" _ Edot).
      destruct (Ascii.eqb c ",") eqn:Ecomma.
      * apply Ascii.eqb_eq in Ecomma. subst c. rewrite replace_cons_drop.
        cbn [orb append]. exact IH.
      * rewrite (replace_cons_other "," c "" _ Ecomma).
        destruct (Ascii.eqb c "/") eqn:Eslash.
        -- apply Ascii.eqb_eq in Eslash. subst c. rewrite replace_cons_drop.
           cbn [orb append]. exact IH.
        -- rewrite (replace_cons_other "/" c "" _ Eslash).
           cbn [orb append]. now rewrite IH.
Qed.

Lemma chars_append (s1 s2 : string) :
  chars (s1 ++ s2) = chars s1 ++ chars s2.
Proof.
  unfold chars. induction s1 as [|c s1 IH]; [reflexivity|].
  cbn. now rewrite IH.
Qed.

(** No space, period, comma or slash is left in a sanitized name. *)
Lemma sanitize_clean (name : string) (ch : ascii) :
  In ch (chars (sanitize name)) ->
  ch <> " "%char /\ ch <> "."%char /\ ch <> ","%char /\ ch <> "/"%char.
Proof.
  induction name as [|c name IH]; [intros []|].
  cbn [sanitize]. rewrite chars_append. intros H.
  apply in_app_or in H as [H|H]; [|exact (IH H)].
  unfold sanitize_char in H.
  destruct (Ascii.eqb c " ") eqn:Esp.
  - destruct H as [<-|[]]. repeat split; discriminate.
  - destruct (Ascii.eqb c ".") eqn:Edot; [destruct H|].
    destruct (Ascii.eqb c ",") eqn:Ecomma; [destruct H|].
    destruct (Ascii.eqb c "/") eqn:Eslash; [destruct H|].
    destruct H as [<-|[]].
    repeat split; now apply Ascii.eqb_neq.
Qed.

(** C9.  The chart of a receiver is saved under the name made of the start
    year, the transmitter name and the sanitized receiver name, joined by
    underscores; in the sanitized name every space of the receiver name is an
    underscore and its periods, commas and slashes are gone. *)
Theorem chart_filename (cfg : settings) (lib : libraries)
        (vars vars' : loopvars) (country : receiver) (c : chart) :
  process_receiver cfg lib vars country = Ok (vars', c) ->
  filename c
  = (str_of_int (date_year lib (start_date cfg)) ++ "_" ++ txname cfg ++ "_"
     ++ prefix (cty country))%string
  /\ render lib (drawing c) (filename c) = Ok tt
  /\ prefix (cty country) = sanitize (cty country)
  /\ (forall ch, In ch (chars (prefix (cty country))) ->
        ch <> " "%char /\ ch <> "."%char /\ ch <> ","%char /\ ch <> "/"%char).
Proof.
  intros H. unfold process_receiver in H. cbv zeta in H.
  destruct (midpoint lib _ _ _ _) as [[mp_lat mp_lon]|]; [|discriminate H].
  cbn [bind] in H.
  destruct (for_dates cfg lib _ _ _ _) as [st|]; [|discriminate H].
  cbn [bind] in H.
  destruct (render lib _ _) as [[]|] eqn:Er; [|discriminate H].
  cbn [bind] in H. injection H as _ <-. cbn [filename drawing].
  split; [reflexivity|]. split; [exact Er|]. split; [apply prefix_sanitize|].
  intros ch. rewrite prefix_sanitize. apply sanitize_clean.
Qed.

Lemma chart_filename_witness :
  exists vars c,
    process_receiver one_receiver sample_lib (mkVars None None None)
                     (mkReceiver "W2 New York City, NY" 40.8 (-74.0))
    = Ok (vars, c)
    /\ filename c = "2020_ZL1 Auckland_W2_New_York_City_NY"%string.
Proof.
  eexists _, _. split; [vm_compute; reflexivity|].
  refine (proj1 (chart_filename one_receiver sample_lib (mkVars None None None)
                   _ (mkReceiver "W2 New York City, NY" 40.8 (-74.0)) _ _)).
  vm_compute. reflexivity.
Defined.

(** The receivers of the script's own list. *)
Example script_prefixes :
  map (fun r => prefix (cty r)) (dxcc script_settings)
  = [ "3YB_Bouvet"; "PY0T_Trindade_&_Martim_Vaz_Is"; "W2_New_York_City_NY";
      "OJ0_MÃ¤rket_Reef" ]%string.
Proof. reflexivity. Qed.

(* ===================================================================== *)
(** ** More on the per-day block *)
(* ===================================================================== *)

Lemma mark_missing_returns (evs : list event) (s : loc) :
  exists s1, mark_missing evs s = Ok s1.
Proof.
  destruct evs as [|[t1 y1] [|e2 rest]].
  - eexists. reflexivity.
  - destruct y1; eexists; reflexivity.
  - eexists. apply mark_missing_long. cbn. lia.
Qed.

(** The per-day block in closed form. *)
Lemma segment_day_after_day (evs : list event) (s : loc) :
  segment_day evs s = Ok (after_day evs s).
Proof.
  unfold after_day.
  destruct evs as [|[t1 y1] [|[t2 y2] [|[t3 y3] [|e4 rest]]]].
  - reflexivity.
  - destruct y1; reflexivity.
  - unfold segment_day. rewrite mark_missing_long by (cbn; lia). cbn [bind].
    rewrite repair_other by (cbn; lia). now rewrite assign_spec.
  - unfold segment_day. rewrite mark_missing_long by (cbn; lia). cbn [bind].
    rewrite assign_spec. unfold repair.
    cbn [len List.length Z.of_nat Z.eqb Pos.of_succ_nat Pos.succ Pos.eqb
         loop_flag flag_after fold_left snd].
    destruct y1, y2, y3;
      cbn [day_slots side_values filter map fst snd Bool.eqb sr ss removelast];
      rewrite ?app_nil_r;
      first [rewrite pop_snoc2 | rewrite pop_snoc
            | change (sr s ++ [minutes (convert_to_minutes t1);
                               minutes (convert_to_minutes t2);
                               minutes (convert_to_minutes t3)])
                with (sr s ++ [minutes (convert_to_minutes t1);
                               minutes (convert_to_minutes t2)]
                      ++ [minutes (convert_to_minutes t3)]);
              rewrite app_assoc, pop_snoc
            | change (ss s ++ [minutes (convert_to_minutes t1);
                               minutes (convert_to_minutes t2);
                               minutes (convert_to_minutes t3)])
                with (ss s ++ [minutes (convert_to_minutes t1);
                               minutes (convert_to_minutes t2)]
                      ++ [minutes (convert_to_minutes t3)]);
              rewrite app_assoc, pop_snoc];
      cbn [bind]; rewrite <- ?app_assoc; reflexivity.
  - unfold segment_day. rewrite mark_missing_long by (cbn; lia). cbn [bind].
    rewrite repair_other by (cbn; lia). now rewrite assign_spec.
Qed.

Lemma day_slots_count (evs : list event) :
  (List.length (fst (day_slots evs)) + List.length (snd (day_slots evs))
   = if List.length evs <=? 3 then 2 else List.length evs)%nat.
Proof.
  destruct evs as [|[t1 y1] [|[t2 y2] [|[t3 y3] [|e4 rest]]]].
  - reflexivity.
  - destruct y1; reflexivity.
  - destruct y1, y2; reflexivity.
  - destruct y1, y2, y3; reflexivity.
  - change (day_slots ((t1, y1) :: (t2, y2) :: (t3, y3) :: e4 :: rest))
      with (side_values true ((t1, y1) :: (t2, y2) :: (t3, y3) :: e4 :: rest),
            side_values false ((t1, y1) :: (t2, y2) :: (t3, y3) :: e4 :: rest)).
    cbn [fst snd]. rewrite side_values_total. reflexivity.
Qed.

(** X2.  Whatever the events and whatever the lists hold, the per-day block
    raises nothing and only appends: the earlier slots stay, and the day adds
    two slots in all when it has at most three events, one per event when it
    has more. *)
Theorem segment_day_appends (evs : list event) (s : loc) :
  exists rises sets,
    segment_day evs s
    = Ok (mkLoc (sr s ++ rises) (ss s ++ sets) (flag_after evs (loop_flag s)))
    /\ (List.length rises + List.length sets
        = if List.length evs <=? 3 then 2 else List.length evs)%nat.
Proof.
  exists (fst (day_slots evs)), (snd (day_slots evs)).
  split; [apply segment_day_after_day | apply day_slots_count].
Qed.

Lemma reconcilable_day_slots (evs : list event) :
  reconcilable evs = true -> day_slots evs = ([day_sunrise evs], [day_sunset evs]).
Proof.
  destruct evs as [|[t1 y1] [|[t2 y2] [|[t3 y3] [|e4 rest]]]]; cbn [reconcilable].
  - reflexivity.
  - destruct y1; reflexivity.
  - destruct y1, y2; try discriminate; reflexivity.
  - destruct y1, y2; try discriminate; destruct y3; reflexivity.
  - discriminate.
Qed.

Lemma day_slots_one_each (evs : list event) :
  List.length (fst (day_slots evs)) = 1%nat ->
  List.length (snd (day_slots evs)) = 1%nat ->
  reconcilable evs = true.
Proof.
  intros H1 H2. pose proof (day_slots_count evs) as H. rewrite H1, H2 in H.
  revert H1 H2 H.
  destruct evs as [|[t1 y1] [|[t2 y2] [|[t3 y3] [|e4 rest]]]].
  - reflexivity.
  - reflexivity.
  - destruct y1, y2; cbn; try discriminate; reflexivity.
  - destruct y1, y2, y3; cbn; try discriminate; reflexivity.
  - intros _ _ H. cbn in H. lia.
Qed.

(** X3.  The per-day block leaves exactly one new slot on each side if and only
    if the day is reconcilable: no event, one event, two events with different
    flags, or three events whose first two flags differ. *)
Theorem one_value_each_iff_reconcilable (evs : list event) (s : loc) :
  one_value_each evs s <-> reconcilable evs = true.
Proof.
  split.
  - intros (a & b & f & H). rewrite segment_day_after_day in H.
    unfold after_day in H. injection H as Hsr Hss _.
    apply app_inv_head in Hsr. apply app_inv_head in Hss.
    apply day_slots_one_each; [now rewrite Hsr | now rewrite Hss].
  - intros H. unfold one_value_each. eexists _, _, _.
    apply segment_day_reconcilable. exact H.
Qed.

Lemma segment_days_returns (days : list (list event)) (s : loc) :
  exists rises sets f,
    segment_days days s = Ok (mkLoc (sr s ++ rises) (ss s ++ sets) f)
    /\ (Forall (fun evs => (List.length evs <= 3)%nat) days ->
        (List.length rises + List.length sets = 2 * List.length days)%nat)
    /\ forall g,
         exists f', segment_days days (mkLoc (sr s) (ss s) g)
                    = Ok (mkLoc (sr s ++ rises) (ss s ++ sets) f').
Proof.
  revert s. induction days as [|evs days IH]; intros s.
  - exists [], [], (loop_flag s). rewrite !app_nil_r. split; [destruct s; reflexivity|].
    split; [reflexivity|]. intros g. exists g. reflexivity.
  - cbn [segment_days]. rewrite segment_day_after_day. cbn [bind].
    destruct (IH (after_day evs s)) as (r & t & f & Hrun & Hcount & Hflag).
    exists (fst (day_slots evs) ++ r), (snd (day_slots evs) ++ t), f.
    rewrite Hrun. cbn [after_day sr ss]. rewrite <- !app_assoc.
    split; [reflexivity|]. split.
    + intros Hall. inversion Hall as [|? ? H3 Hrest]; subst.
      specialize (Hcount Hrest). pose proof (day_slots_count evs) as Hd.
      destruct (Nat.leb_spec (List.length evs) 3) as [_|Hgt]; [|lia].
      rewrite !length_app. cbn [List.length]. lia.
    + intros g. rewrite segment_day_after_day. cbn [bind].
      destruct (Hflag (flag_after evs g)) as [f' Hf']. exists f'.
      unfold after_day in *. cbn [sr ss loop_flag] in *.
      rewrite Hf'. now rewrite <- !app_assoc.
Qed.

(** X4.  A run of days never raises and never touches earlier slots; when every
    day has at most three events the two lists together grow by exactly two
    slots per day, whatever the flags are. *)
Theorem segment_days_two_slots_per_day (days : list (list event)) (s : loc) :
  exists rises sets f,
    segment_days days s = Ok (mkLoc (sr s ++ rises) (ss s ++ sets) f)
    /\ (Forall (fun evs => (List.length evs <= 3)%nat) days ->
        (List.length rises + List.length sets = 2 * List.length days)%nat).
Proof.
  destruct (segment_days_returns days s) as (r & t & f & H & Hc & _).
  exists r, t, f. split; assumption.
Qed.


(* ===================================================================== *)
(** ** More on the date loop and the receiver loop *)
(* ===================================================================== *)

Lemma zrange_nth (n i : nat) :
  nth_error (zrange n) i = if (i <? n)%nat then Some (Z.of_nat i) else None.
Proof.
  unfold zrange. rewrite nth_error_map.
  destruct (Nat.ltb_spec i n) as [Hlt|Hge].
  - rewrite nth_error_nth' with (d := 0%nat) by (now rewrite length_seq).
    cbn. now rewrite seq_nth.
  - assert (H : nth_error (seq 0 n) i = None)
      by (apply nth_error_None; now rewrite length_seq).
    now rewrite H.
Qed.

Lemma date_list_nil (cfg : settings) :
  end_date cfg <= start_date cfg -> date_list cfg = [].
Proof.
  intros H. unfold date_list.
  replace (Z.to_nat (end_date cfg - start_date cfg)) with 0%nat by lia.
  reflexivity.
Qed.

(** X1.  The date list holds exactly the dates from the start date up to, and
    without, the end date, each once and in increasing order: entry i is
    start_date + i.  It is empty when the end date is not after the start
    date. *)
Theorem date_list_range (cfg : settings) :
  (forall date, In date (date_list cfg)
                <-> start_date cfg <= date < end_date cfg)
  /\ (forall i, nth_error (date_list cfg) i
                = if Z.of_nat i <? end_date cfg - start_date cfg
                  then Some (start_date cfg + Z.of_nat i) else None)
  /\ (date_list cfg = [] <-> end_date cfg <= start_date cfg).
Proof.
  assert (Hnth : forall i, nth_error (date_list cfg) i
                = if Z.of_nat i <? end_date cfg - start_date cfg
                  then Some (start_date cfg + Z.of_nat i) else None).
  { intros i. unfold date_list. rewrite nth_error_map, zrange_nth.
    destruct (Nat.ltb_spec i (Z.to_nat (end_date cfg - start_date cfg)));
      destruct (Z.ltb_spec (Z.of_nat i) (end_date cfg - start_date cfg));
      try lia; reflexivity. }
  split; [|split; [exact Hnth|]].
  - intros date. split.
    + intros H. apply In_nth_error in H as [i Hi]. rewrite Hnth in Hi.
      destruct (Z.ltb_spec (Z.of_nat i) (end_date cfg - start_date cfg));
        [|discriminate]. injection Hi as <-. lia.
    + intros H. apply nth_error_In with (n := Z.to_nat (date - start_date cfg)).
      rewrite Hnth.
      destruct (Z.ltb_spec (Z.of_nat (Z.to_nat (date - start_date cfg)))
                           (end_date cfg - start_date cfg)); [|lia].
      f_equal. lia.
  - split.
    + intros H. specialize (Hnth 0%nat). rewrite H in Hnth. cbn in Hnth.
      destruct (Z.ltb_spec 0 (end_date cfg - start_date cfg));
        [discriminate | lia].
    + apply date_list_nil.
Qed.

Section DateLoopCases.

Variable cfg : settings.
Variable lib : libraries.

(** The body of the date loop by cases: the first query that raises ends it
    with that exception; when the three return, each location's lists advance
    by its own day. *)
Lemma date_body_cases (rxloc mploc : Topos) (st : lists) (date : Z) :
  date_body cfg lib rxloc mploc st date
  = match find_discrete lib (txloc cfg) date with
    | Raise e => Raise e
    | Ok tx =>
        match find_discrete lib rxloc date with
        | Raise e => Raise e
        | Ok rx =>
            match find_discrete lib mploc date with
            | Raise e => Raise e
            | Ok mp =>
                Ok (mkLists (dates st ++ [utc_strftime lib date])
                            (after_day tx (at_tx st)) (after_day rx (at_rx st))
                            (after_day mp (at_mp st)))
            end
        end
    end.
Proof.
  unfold date_body. cbv zeta.
  destruct (find_discrete lib (txloc cfg) date) as [tx|e]; [|reflexivity].
  cbn [bind].
  pose proof (segment_day_after_day tx (at_tx st)) as Ht. unfold segment_day in Ht.
  destruct (mark_missing tx (at_tx st)) as [t1|]; [|discriminate Ht].
  cbn [bind] in *.
  destruct (find_discrete lib rxloc date) as [rx|e]; [|reflexivity].
  cbn [bind].
  pose proof (segment_day_after_day rx (at_rx st)) as Hr. unfold segment_day in Hr.
  destruct (mark_missing rx (at_rx st)) as [r1|]; [|discriminate Hr].
  cbn [bind] in *.
  destruct (find_discrete lib mploc date) as [mp|e]; [|reflexivity].
  cbn [bind].
  pose proof (segment_day_after_day mp (at_mp st)) as Hm. unfold segment_day in Hm.
  destruct (mark_missing mp (at_mp st)) as [m1|]; [|discriminate Hm].
  cbn [bind] in *. rewrite Ht, Hr, Hm. reflexivity.
Qed.

Lemma for_dates_answered (rxloc mploc : Topos) (ds : list Z) (st0 : lists) :
  answered lib [txloc cfg; rxloc; mploc] ds ->
  exists st,
    for_dates cfg lib rxloc mploc ds st0 = Ok st
    /\ dates st = dates st0 ++ map (utc_strftime lib) ds
    /\ segment_days (map (events_at lib (txloc cfg)) ds) (at_tx st0)
       = Ok (at_tx st)
    /\ segment_days (map (events_at lib rxloc) ds) (at_rx st0) = Ok (at_rx st)
    /\ segment_days (map (events_at lib mploc) ds) (at_mp st0) = Ok (at_mp st).
Proof.
  revert st0. induction ds as [|date ds IH]; intros st0 Hans.
  - exists st0. cbn. now rewrite app_nil_r.
  - destruct (Hans date (txloc cfg)) as (tx & Qt); [now left | now left |].
    destruct (Hans date rxloc) as (rx & Qr); [now left | right; now left |].
    destruct (Hans date mploc) as (mp & Qm);
      [now left | right; right; now left |].
    cbn [for_dates map segment_days]. rewrite date_body_cases, Qt, Qr, Qm.
    cbn [bind]. unfold events_at. rewrite Qt, Qr, Qm.
    rewrite !segment_day_after_day. cbn [bind].
    edestruct IH as (st & Hst & Hd & H1 & H2 & H3).
    { intros d w Hd Hw. apply Hans; [now right | exact Hw]. }
    exists st. split; [exact Hst|]. cbn [dates at_tx at_rx at_mp] in *.
    rewrite Hd, <- app_assoc. repeat split; assumption.
Qed.

(** X5.  When every ephemeris query of the date range returns, the date loop
    returns, with one date label per date, and what it leaves for each
    location is what that location's days give on their own, in date order:
    the three locations, interleaved in the loop body, do not affect one
    another. *)
Theorem date_loop_runs_each_location (rxloc mploc : Topos) (vars : loopvars) :
  answered lib [txloc cfg; rxloc; mploc] (date_list cfg) ->
  exists st,
    for_dates cfg lib rxloc mploc (date_list cfg) (fresh_lists vars) = Ok st
    /\ dates st = map (utc_strftime lib) (date_list cfg)
    /\ segment_days (map (events_at lib (txloc cfg)) (date_list cfg))
                    (mkLoc [] [] (yx vars)) = Ok (at_tx st)
    /\ segment_days (map (events_at lib rxloc) (date_list cfg))
                    (mkLoc [] [] (yy vars)) = Ok (at_rx st)
    /\ segment_days (map (events_at lib mploc) (date_list cfg))
                    (mkLoc [] [] (yz vars)) = Ok (at_mp st).
Proof.
  intros Hans.
  destruct (for_dates_answered rxloc mploc (date_list cfg) (fresh_lists vars) Hans)
    as (st & Hst & Hd & H1 & H2 & H3).
  exists st. repeat split; assumption.
Qed.

Lemma for_dates_raise (rxloc mploc : Topos) (ds : list Z) (st0 : lists) (e : exn) :
  for_dates cfg lib rxloc mploc ds st0 = Raise e ->
  exists date where_,
    In date ds /\ In where_ [txloc cfg; rxloc; mploc]
    /\ find_discrete lib where_ date = Raise e.
Proof.
  revert st0. induction ds as [|date ds IH]; intros st0 H; [discriminate H|].
  cbn [for_dates] in H. rewrite date_body_cases in H.
  destruct (find_discrete lib (txloc cfg) date) as [tx|e1] eqn:Qt.
  - destruct (find_discrete lib rxloc date) as [rx|e2] eqn:Qr.
    + destruct (find_discrete lib mploc date) as [mp|e3] eqn:Qm.
      * cbn [bind] in H. destruct (IH _ H) as (d & w & Hd & Hw & Hq).
        exists d, w. split; [now right|]. split; assumption.
      * injection H as <-. exists date, mploc.
        split; [now left|]. split; [right; right; now left | exact Qm].
    + injection H as <-. exists date, rxloc.
      split; [now left|]. split; [right; now left | exact Qr].
  - injection H as <-. exists date, (txloc cfg).
    split; [now left|]. split; [now left | exact Qt].
Qed.

Lemma after_day_same (evs : list event) (a b : loc) :
  sr a = sr b -> ss a = ss b ->
  sr (after_day evs a) = sr (after_day evs b)
  /\ ss (after_day evs a) = ss (after_day evs b).
Proof. intros H1 H2. unfold after_day. cbn [sr ss]. now rewrite H1, H2. Qed.

Lemma for_dates_same_lists (rxloc mploc : Topos) (ds : list Z) (a b : lists) :
  same_lists a b ->
  match for_dates cfg lib rxloc mploc ds a, for_dates cfg lib rxloc mploc ds b with
  | Ok a', Ok b' => same_lists a' b'
  | Raise e1, Raise e2 => e1 = e2
  | _, _ => False
  end.
Proof.
  revert a b. induction ds as [|date ds IH]; intros a b Hab; [exact Hab|].
  cbn [for_dates]. rewrite !date_body_cases.
  destruct (find_discrete lib (txloc cfg) date) as [tx|]; [|reflexivity].
  destruct (find_discrete lib rxloc date) as [rx|]; [|reflexivity].
  destruct (find_discrete lib mploc date) as [mp|]; [|reflexivity].
  cbn [bind]. apply IH.
  destruct Hab as (Hd & H1 & H2 & H3 & H4 & H5 & H6).
  unfold same_lists. cbn [dates at_tx at_rx at_mp].
  destruct (after_day_same tx _ _ H1 H2) as [-> ->].
  destruct (after_day_same rx _ _ H3 H4) as [-> ->].
  destruct (after_day_same mp _ _ H5 H6) as [-> ->].
  rewrite Hd. repeat split; reflexivity.
Qed.

Lemma draw_same_lists (country : receiver) (a b : lists) :
  same_lists a b -> draw cfg lib country a = draw cfg lib country b.
Proof.
  intros (Hd & H1 & H2 & H3 & H4 & H5 & H6). unfold draw. cbv zeta.
  now rewrite Hd, H1, H2, H3, H4, H5, H6.
Qed.

Lemma process_receiver_any_vars
        (v1 v2 : loopvars) (country : receiver) :
  match process_receiver cfg lib v1 country,
        process_receiver cfg lib v2 country with
  | Ok (_, c1), Ok (_, c2) => c1 = c2
  | Raise e1, Raise e2 => e1 = e2
  | _, _ => False
  end.
Proof.
  unfold process_receiver. cbv zeta.
  destruct (midpoint lib _ _ _ _) as [[mp_lat mp_lon]|]; [|reflexivity].
  cbn [bind].
  pose proof (for_dates_same_lists
                (mkTopos (rxlat country) (rxlon country) (elv cfg))
                (mkTopos mp_lat mp_lon (elv cfg)) (date_list cfg)
                (fresh_lists v1) (fresh_lists v2)) as H.
  destruct (for_dates cfg lib _ _ _ (fresh_lists v1)) as [a|e1];
    destruct (for_dates cfg lib _ _ _ (fresh_lists v2)) as [b|e2];
    cbn [bind]; try (exfalso; apply H; repeat split; reflexivity).
  - rewrite (draw_same_lists country a b) by (apply H; repeat split; reflexivity).
    destruct (render lib _ _) as [[]|]; reflexivity.
  - apply H. repeat split; reflexivity.
Qed.

Lemma receiver_loop_alone (rs : list receiver) (vars : loopvars)
      (saved : list chart) :
  Forall (fun r => exists v c,
              process_receiver cfg lib (mkVars None None None) r = Ok (v, c)) rs ->
  exists cs,
    receiver_loop cfg lib rs vars saved = (saved ++ cs, Ok tt)
    /\ Forall2 (fun r c => exists v,
                    process_receiver cfg lib (mkVars None None None) r = Ok (v, c))
               rs cs.
Proof.
  revert vars saved. induction rs as [|r rs IH]; intros vars saved Hall.
  - exists []. rewrite app_nil_r. split; [reflexivity | constructor].
  - inversion Hall as [|? ? (v & c & Hr) Hrest]; subst.
    cbn [receiver_loop].
    pose proof (process_receiver_any_vars
                  vars (mkVars None None None) r) as Hsame.
    rewrite Hr in Hsame.
    destruct (process_receiver cfg lib vars r) as [[v' c']|]; [|contradiction].
    subst c'. destruct (IH v' (saved ++ [c]) Hrest) as (cs & Hloop & Hcs).
    exists (c :: cs). rewrite Hloop, <- app_assoc. split; [reflexivity|].
    constructor; [exists v; exact Hr | exact Hcs].
Qed.

End DateLoopCases.

(** X7.  The loop variables an earlier receiver left behind have no effect on a
    receiver's outcome: with any two settings of them the processing saves the
    same chart, or raises the same exception. *)
Theorem receiver_outcome_ignores_loop_variables
        (cfg : settings) (lib : libraries) (v1 v2 : loopvars)
        (country : receiver) :
  match process_receiver cfg lib v1 country,
        process_receiver cfg lib v2 country with
  | Ok (_, c1), Ok (_, c2) => c1 = c2
  | Raise e1, Raise e2 => e1 = e2
  | _, _ => False
  end.
Proof. apply process_receiver_any_vars. Qed.

(** X8.  When each receiver of the list can be processed on its own, the script
    ends without error and has saved one chart per receiver, in list order,
    each the chart that receiver gets when it is processed alone. *)
Theorem main_saves_each_receivers_chart (cfg : settings) (lib : libraries) :
  Forall (fun r => exists v c,
              process_receiver cfg lib (mkVars None None None) r = Ok (v, c))
         (dxcc cfg) ->
  exists cs,
    main cfg lib = (cs, Ok tt)
    /\ Forall2 (fun r c => exists v,
                    process_receiver cfg lib (mkVars None None None) r = Ok (v, c))
               (dxcc cfg) cs.
Proof.
  intros H. unfold main.
  destruct (receiver_loop_alone cfg lib (dxcc cfg) (mkVars None None None) [] H)
    as (cs & Hloop & Hcs).
  exists cs. split; [exact Hloop | exact Hcs].
Qed.

Lemma main_saves_each_receivers_chart_witness :
  exists cs,
    main script_settings sample_lib = (cs, Ok tt) /\ List.length cs = 4%nat.
Proof.
  destruct (main_saves_each_receivers_chart script_settings sample_lib)
    as (cs & Hmain & Hcs).
  - repeat constructor; eexists _, _; vm_compute; reflexivity.
  - exists cs. split; [exact Hmain|].
    apply Forall2_length in Hcs. symmetry. exact Hcs.
Defined.

Lemma date_loop_runs_each_location_witness :
  exists st,
    for_dates one_receiver doubled_lib (mkTopos 40.8 (-74.0) 0)
              (mkTopos 1.975 50.385 0) (date_list one_receiver)
              (fresh_lists (mkVars None None None)) = Ok st
    /\ segment_days [ [(at_hms 6 10 30, true); (at_hms 6 10 31, true)];
                      [(at_hms 6 10 30, true); (at_hms 6 10 31, true)] ]
                    (mkLoc [] [] None) = Ok (at_tx st).
Proof.
  destruct (date_loop_runs_each_location one_receiver doubled_lib
              (mkTopos 40.8 (-74.0) 0) (mkTopos 1.975 50.385 0)
              (mkVars None None None))
    as (st & Hst & _ & H1 & _).
  - intros date w _ _. eexists. reflexivity.
  - exists st. split; [exact Hst | exact H1].
Defined.

(** X9.  With an empty date range (an end date not after the start date) the
    processing of a receiver asks the ephemeris nothing (it succeeds whatever
    the ephemeris would answer) and, when the midpoint and the rendering
    succeed, saves a chart with no dates and six empty curves, shaded as
    normal: four fill calls on empty curves. *)
Theorem empty_date_range_chart (cfg : settings) (lib : libraries)
        (vars : loopvars) (country : receiver) (mp : float * float) :
  let fig := draw cfg lib country (fresh_lists vars) in
  end_date cfg <= start_date cfg ->
  midpoint lib (txlat cfg) (txlon cfg) (rxlat country) (rxlon country) = Ok mp ->
  render lib fig (chart_name cfg lib country) = Ok tt ->
  process_receiver cfg lib vars country
  = Ok (vars, mkChart (chart_name cfg lib country) fig)
  /\ fig_dates fig = []
  /\ fig_curves fig = [[]; []; []; []; []; []]
  /\ regions (fig_fills fig)
     = [([], Level 1440); ([], Level 0); ([], Level 1440); ([], Level 0)].
Proof.
  cbv zeta. intros Hrange Hmid Hrender.
  split; [|repeat split; reflexivity].
  unfold process_receiver. cbv zeta. rewrite Hmid. destruct mp as [mp_lat mp_lon].
  cbn [bind].
  rewrite (date_list_nil cfg Hrange). cbn [for_dates bind]. rewrite Hrender. cbn [bind].
  destruct vars; reflexivity.
Qed.

Lemma empty_date_range_chart_witness :
  exists c,
    process_receiver no_days no_ephemeris_lib (mkVars None None None)
                     (mkReceiver "W2 New York City, NY" 40.8 (-74.0))
    = Ok (mkVars None None None, c)
    /\ fig_curves (drawing c) = [[]; []; []; []; []; []].
Proof.
  eexists. split.
  - refine (proj1 (empty_date_range_chart no_days no_ephemeris_lib
                     (mkVars None None None)
                     (mkReceiver "W2 New York City, NY" 40.8 (-74.0))
                     (PrimFloat.div (PrimFloat.add (-36.85) 40.8) 2,
                      PrimFloat.div (PrimFloat.add 174.77 (-74.0)) 2) _ _ _)).
    + vm_compute. discriminate.
    + reflexivity.
    + reflexivity.
  - reflexivity.
Defined.

(* ===================================================================== *)
(** ** More on the fill polarity *)
(* ===================================================================== *)

Lemma segment_days_eventless (n : nat) (s : loc) :
  segment_days (repeat [] n) s
  = Ok (mkLoc (sr s ++ repeat np_nan n) (ss s ++ repeat np_nan n) (loop_flag s)).
Proof.
  revert s. induction n as [|n IH]; intros s.
  - destruct s; cbn. now rewrite !app_nil_r.
  - cbn [repeat segment_days]. rewrite segment_day_after_day. cbn [bind].
    rewrite IH. cbn [after_day day_slots fst snd sr ss loop_flag flag_after fold_left].
    now rewrite <- !app_assoc.
Qed.

Lemma list_le_all_nan (n : nat) :
  list_le (repeat np_nan n) (repeat np_nan n) = true.
Proof. induction n as [|n IH]; [reflexivity | exact IH]. Qed.

(** X10.  A location where no day of the range has an event (polar day or polar
    night throughout) gets two lists of missing values only, and its fill is
    the normal one, two regions: the comparison of the lists finds the same
    [np.nan] object at every position and falls back on the equal lengths. *)
Theorem eventless_series_is_normal (n : nat) (f : option bool) :
  segment_days (repeat [] n) (mkLoc [] [] f)
  = Ok (mkLoc (repeat np_nan n) (repeat np_nan n) f)
  /\ polarity_of (repeat np_nan n) (repeat np_nan n) = Normal
  /\ regions (tx_fill (repeat np_nan n) (repeat np_nan n))
     = [(repeat np_nan n, Level 1440); (repeat np_nan n, Level 0)]
  /\ regions (rx_fill (repeat np_nan n) (repeat np_nan n))
     = [(repeat np_nan n, Level 1440); (repeat np_nan n, Level 0)].
Proof.
  split; [apply segment_days_eventless|].
  unfold polarity_of, tx_fill, rx_fill. rewrite list_le_all_nan.
  repeat split; reflexivity.
Qed.

(* ===================================================================== *)
(** ** More on the sanitized receiver name *)
(* ===================================================================== *)

Lemma append_assoc_string (a b c : string) :
  ((a ++ b) ++ c)%string = (a ++ (b ++ c))%string.
Proof. induction a as [|x a IH]; [reflexivity|]. cbn. now rewrite IH. Qed.

Lemma sanitize_append (a b : string) :
  sanitize (a ++ b) = (sanitize a ++ sanitize b)%string.
Proof.
  induction a as [|c a IH]; [reflexivity|].
  cbn [append sanitize]. now rewrite IH, append_assoc_string.
Qed.

Lemma sanitize_char_fixed (c : ascii) : sanitize (sanitize_char c) = sanitize_char c.
Proof.
  unfold sanitize_char.
  destruct (Ascii.eqb c " ") eqn:Esp; [reflexivity|].
  destruct (Ascii.eqb c ".") eqn:Edot; [reflexivity|].
  destruct (Ascii.eqb c ",") eqn:Ecomma; [reflexivity|].
  destruct (Ascii.eqb c "/") eqn:Eslash; [reflexivity|].
  cbn [orb sanitize]. unfold sanitize_char.
  now rewrite Esp, Edot, Ecomma, Eslash.
Qed.

Lemma sanitize_idempotent (s : string) : sanitize (sanitize s) = sanitize s.
Proof.
  induction s as [|c s IH]; [reflexivity|].
  cbn [sanitize]. now rewrite sanitize_append, sanitize_char_fixed, IH.
Qed.

Lemma length_append_string (a b : string) :
  String.length (a ++ b) = (String.length a + String.length b)%nat.
Proof. induction a as [|c a IH]; [reflexivity|]. cbn. now rewrite IH. Qed.

Lemma sanitize_length (s : string) :
  (String.length (sanitize s) <= String.length s)%nat.
Proof.
  induction s as [|c s IH]; [reflexivity|].
  cbn [sanitize]. rewrite length_append_string. unfold sanitize_char.
  destruct (Ascii.eqb c " "); [cbn; lia|].
  destruct (Ascii.eqb c "." || Ascii.eqb c "," || Ascii.eqb c "/"); cbn; lia.
Qed.

Lemma sanitize_clean_fixed (s : string) :
  (forall ch, In ch (chars s) ->
     ch <> " "%char /\ ch <> "."%char /\ ch <> ","%char /\ ch <> "/"%char) ->
  sanitize s = s.
Proof.
  induction s as [|c s IH]; [reflexivity|].
  intros H. cbn [sanitize]. rewrite IH by (intros ch Hch; apply H; now right).
  destruct (H c) as (H1 & H2 & H3 & H4); [now left|].
  unfold sanitize_char.
  apply Ascii.eqb_neq in H1, H2, H3, H4. now rewrite H1, H2, H3, H4.
Qed.

(** X11.  Sanitizing is idempotent and leaves exactly the clean names alone: a
    sanitized name is unchanged by a second pass, and a name is its own
    sanitized form if and only if it holds no space, period, comma or slash.
    The result is never longer than the name. *)
Theorem prefix_idempotent (name : string) :
  prefix (prefix name) = prefix name
  /\ (prefix name = name
      <-> forall ch, In ch (chars name) ->
            ch <> " "%char /\ ch <> "."%char /\ ch <> ","%char /\ ch <> "/"%char)
  /\ (String.length (prefix name) <= String.length name)%nat.
Proof.
  rewrite !prefix_sanitize. split; [apply sanitize_idempotent|]. split.
  - split.
    + intros H ch Hch. rewrite <- H in Hch. now apply sanitize_clean in Hch.
    + apply sanitize_clean_fixed.
  - apply sanitize_length.
Qed.

(** X12.  Sanitizing works character by character, so it commutes with
    concatenation: the sanitized form of a name made of two parts is the
    sanitized parts put together. *)
Theorem prefix_append (a b : string) :
  prefix (a ++ b) = (prefix a ++ prefix b)%string.
Proof. rewrite !prefix_sanitize. apply sanitize_append. Qed.

(** X13.  The file name does not keep receiver names apart: a period, a comma or
    a slash anywhere in the name leaves no trace, and a space gives the same
    file name as an underscore in its place, so two receivers whose names
    differ only in these get the same chart file. *)
Theorem chart_names_collide (cfg : settings) (lib : libraries)
        (a b : string) (lat1 lon1 lat2 lon2 : float) :
  chart_name cfg lib (mkReceiver (a ++ "." ++ b) lat1 lon1)
  = chart_name cfg lib (mkReceiver (a ++ b) lat2 lon2)
  /\ chart_name cfg lib (mkReceiver (a ++ "," ++ b) lat1 lon1)
     = chart_name cfg lib (mkReceiver (a ++ b) lat2 lon2)
  /\ chart_name cfg lib (mkReceiver (a ++ "/" ++ b) lat1 lon1)
     = chart_name cfg lib (mkReceiver (a ++ b) lat2 lon2)
  /\ chart_name cfg lib (mkReceiver (a ++ " " ++ b) lat1 lon1)
     = chart_name cfg lib (mkReceiver (a ++ "_" ++ b) lat2 lon2).
Proof.
  unfold chart_name. cbn [cty]. rewrite !prefix_sanitize, !sanitize_append.
  repeat split; reflexivity.
Qed.

(* ===================================================================== *)
(** ** More on convert_to_minutes *)
(* ===================================================================== *)


Lemma exact_minutes_seconds (tn : datetime) :
  (exact_minutes tn == second_of_day tn # 60)%Q.
Proof.
  unfold exact_minutes, second_of_day, Qeq, Qplus, inject_Z.
  cbn [Qnum Qden]. lia.
Qed.

Lemma convert_to_minutes_increasing (t1 t2 : Time) :
  valid_datetime (utc_datetime t1) ->
  valid_datetime (utc_datetime t2) ->
  second_of_day (utc_datetime t1) < second_of_day (utc_datetime t2) ->
  exists q1 q2,
    Q_of_float (convert_to_minutes t1) = Some q1
    /\ Q_of_float (convert_to_minutes t2) = Some q2
    /\ (q1 < q2)%Q.
Proof.
  intros V1 V2 Hlt.
  destruct (convert_to_minutes_close t1 V1) as (q1 & E1 & A1).
  destruct (convert_to_minutes_close t2 V2) as (q2 & E2 & A2).
  exists q1, q2. split; [exact E1|]. split; [exact E2|].
  apply Qabs_Qle_condition in A1, A2.
  rewrite exact_minutes_seconds in A1, A2.
  assert (Hstep : ((second_of_day (utc_datetime t1) # 60) + (1 # 60)
                   <= second_of_day (utc_datetime t2) # 60)%Q).
  { unfold Qle, Qplus. cbn [Qnum Qden]. lia. }
  change (2 ^ 42)%positive with 4398046511104%positive in A1, A2.
  destruct A1 as [A1l A1u]. destruct A2 as [A2l A2u].
  lra.
Qed.

(** X14.  [convert_to_minutes] keeps the order and the identity of the seconds of
    a day: an earlier second converts to a strictly smaller value (read as
    the exact number the float holds), and two instants that convert to the
    same float have the same hour, minute and second. *)
Theorem convert_to_minutes_order (t1 t2 : Time) :
  valid_datetime (utc_datetime t1) ->
  valid_datetime (utc_datetime t2) ->
  (second_of_day (utc_datetime t1) < second_of_day (utc_datetime t2) ->
   exists q1 q2,
     Q_of_float (convert_to_minutes t1) = Some q1
     /\ Q_of_float (convert_to_minutes t2) = Some q2
     /\ (q1 < q2)%Q)
  /\ (convert_to_minutes t1 = convert_to_minutes t2 ->
      hour (utc_datetime t1) = hour (utc_datetime t2)
      /\ minute (utc_datetime t1) = minute (utc_datetime t2)
      /\ second (utc_datetime t1) = second (utc_datetime t2)).
Proof.
  intros V1 V2. split; [apply convert_to_minutes_increasing; assumption|].
  intros Heq.
  assert (Hsod : second_of_day (utc_datetime t1) = second_of_day (utc_datetime t2)).
  { destruct (Z.lt_trichotomy (second_of_day (utc_datetime t1))
                              (second_of_day (utc_datetime t2))) as [H|[H|H]].
    - destruct (convert_to_minutes_increasing t1 t2 V1 V2 H) as (q1 & q2 & E1 & E2 & Hq).
      rewrite Heq, E2 in E1. injection E1 as ->. exfalso. revert Hq. apply Qlt_irrefl.
    - exact H.
    - destruct (convert_to_minutes_increasing t2 t1 V2 V1 H) as (q2 & q1 & E2 & E1 & Hq).
      rewrite <- Heq, E1 in E2. injection E2 as ->. exfalso. revert Hq. apply Qlt_irrefl. }
  unfold second_of_day in Hsod. unfold valid_datetime in V1, V2. lia.
Qed.

Lemma convert_to_minutes_order_witness :
  exists q1 q2,
    Q_of_float (convert_to_minutes (at_hms 6 10 30)) = Some q1
    /\ Q_of_float (convert_to_minutes (at_hms 6 10 31)) = Some q2
    /\ (q1 < q2)%Q.
Proof.
  refine (proj1 (convert_to_minutes_order (at_hms 6 10 30) (at_hms 6 10 31) _ _) _).
  - unfold valid_datetime; simpl; lia.
  - unfold valid_datetime; simpl; lia.
  - reflexivity.
Defined.

(* ===================================================================== *)
(** ** nearest_minute *)
(* ===================================================================== *)

Lemma every_hm_spec (P : Z -> Z -> bool) :
  every_hm P = true ->
  forall h m, 0 <= h < 24 -> 0 <= m < 60 -> P h m = true.
Proof.
  intros H h m Hh Hm. unfold every_hm in H.
  rewrite forallb_forall in H.
  specialize (H h (zrange_In 24 h Hh)). rewrite forallb_forall in H.
  exact (H m (zrange_In 60 m Hm)).
Qed.

Lemma every_whole_minute_ok : every_hm whole_minute_ok = true.
Proof. vm_compute. reflexivity. Qed.

Lemma whole_minute_exact (h m us : Z) :
  0 <= h < 24 -> 0 <= m < 60 ->
  let v := convert_to_minutes (mkTime (mkDatetime h m 0 us)) in
  PrimFloat.eqb v (float_of_int (h * 60 + m)) = true
  /\ exists q, Q_of_float v = Some q /\ (q == inject_Z (h * 60 + m))%Q.
Proof.
  intros Hh Hm. cbv zeta.
  pose proof (every_hm_spec whole_minute_ok every_whole_minute_ok h m Hh Hm) as H.
  unfold whole_minute_ok in H. cbv zeta in H.
  rewrite <- (convert_to_minutes_fields h m 0 us) in H.
  apply andb_true_iff in H as [Heq Hq]. split; [exact Heq|].
  destruct (Q_of_float _) as [q|]; [|discriminate].
  exists q. split; [reflexivity|]. apply Qeq_bool_iff. exact Hq.
Qed.

Lemma nearest_minute_cases (d : pydatetime) :
  valid_pydatetime d ->
  match nearest_minute d with
  | Some r =>
      valid_pydatetime r
      /\ second (clock r) = 0
      /\ microsecond (clock r) = 0
      /\ epoch_us r mod 60000000 = 0
      /\ epoch_us d - 30000000 < epoch_us r <= epoch_us d + 30000000
  | None =>
      toordinal d = max_ordinal
      /\ day_us <= clock_us (clock d) + 30000000
  end.
Proof.
  destruct d as [ord [h m s us]].
  unfold valid_pydatetime, valid_datetime, nearest_minute, add_seconds,
    epoch_us, clock_us, replace_second, max_ordinal, day_us.
  cbn [toordinal clock hour minute second microsecond].
  intros ((Ho1 & Ho2) & Hh & Hm & Hs & Hus). cbv zeta.
  set (t := ((h * 60 + m) * 60 + s) * 1000000 + us + 30 * 1000000).
  assert (Ht : 0 <= t < 2 * 86400000000) by (unfold t; lia).
  destruct (0 <? ord + t / 86400000000) eqn:E1;
    destruct (ord + t / 86400000000 <=? 3652059) eqn:E2;
    cbn [andb toordinal clock hour minute second microsecond];
    try apply Z.ltb_lt in E1; try apply Z.ltb_ge in E1;
    try apply Z.leb_le in E2; try apply Z.leb_gt in E2;
    unfold t in *; Z.to_euclidean_division_equations; lia.
Qed.

(** X15.  [nearest_minute] rounds to the nearest whole minute, a tie going up:
    the result has second 0 and microsecond 0, lies on a minute boundary, and
    is later than the instant minus 30 seconds and at most the instant plus
    30 seconds; the date is carried over midnight.  It fails (OverflowError)
    only in the last 30 seconds of the last representable day. *)
Theorem nearest_minute_rounds (d : pydatetime) :
  valid_pydatetime d ->
  match nearest_minute d with
  | Some r =>
      valid_pydatetime r
      /\ second (clock r) = 0
      /\ microsecond (clock r) = 0
      /\ epoch_us r mod 60000000 = 0
      /\ epoch_us d - 30000000 < epoch_us r <= epoch_us d + 30000000
  | None =>
      toordinal d = max_ordinal
      /\ day_us <= clock_us (clock d) + 30000000
  end.
Proof. apply nearest_minute_cases. Qed.

Lemma nearest_minute_rounds_witness :
  nearest_minute (mkPy 737425 (mkDatetime 23 59 30 0))
  = Some (mkPy 737426 (mkDatetime 0 0 0 0))
  /\ epoch_us (mkPy 737426 (mkDatetime 0 0 0 0))
     <= epoch_us (mkPy 737425 (mkDatetime 23 59 30 0)) + 30000000.
Proof.
  split; [reflexivity|].
  assert (V : valid_pydatetime (mkPy 737425 (mkDatetime 23 59 30 0)))
    by (unfold valid_pydatetime, valid_datetime, max_ordinal; simpl; lia).
  pose proof (nearest_minute_rounds (mkPy 737425 (mkDatetime 23 59 30 0)) V) as H.
  cbv beta iota delta [nearest_minute add_seconds] in H.
  exact (proj2 (proj2 (proj2 (proj2 (proj2 H))))).
Defined.

(** X16.  Rounding twice is rounding once: an instant already on a whole minute
    is its own nearest minute. *)
Theorem nearest_minute_idempotent (d r : pydatetime) :
  valid_pydatetime d ->
  nearest_minute d = Some r ->
  nearest_minute r = Some r.
Proof.
  intros V H. pose proof (nearest_minute_cases d V) as Hc. rewrite H in Hc.
  destruct Hc as (((Ho1 & Ho2) & Hh & Hm & _ & _) & Hs & Hus & _).
  destruct r as [ord [h m s us]].
  cbn [toordinal clock hour minute second microsecond] in *. subst s us.
  unfold nearest_minute, add_seconds, clock_us, replace_second, max_ordinal,
    day_us in *.
  cbn [toordinal clock hour minute second microsecond]. cbv zeta.
  set (t := ((h * 60 + m) * 60 + 0) * 1000000 + 0 + 30 * 1000000).
  assert (Hq : t / 86400000000 = 0) by (apply Z.div_small; unfold t; lia).
  assert (Hr : t mod 86400000000 = t) by (apply Z.mod_small; unfold t; lia).
  rewrite Hq, Hr, Z.add_0_r.
  destruct (Z.ltb_spec 0 ord); [|lia]. destruct (Z.leb_spec ord 3652059); [|lia].
  cbn [andb toordinal clock hour minute].
  assert (Eh : t / 3600000000 = h)
    by (unfold t; Z.to_euclidean_division_equations; lia).
  assert (Em : t / 60000000 mod 60 = m)
    by (unfold t; Z.to_euclidean_division_equations; lia).
  now rewrite Eh, Em.
Qed.

Lemma nearest_minute_idempotent_witness :
  nearest_minute (mkPy 737426 (mkDatetime 0 0 0 0))
  = Some (mkPy 737426 (mkDatetime 0 0 0 0)).
Proof.
  refine (nearest_minute_idempotent (mkPy 737425 (mkDatetime 23 59 30 0)) _ _ _).
  - unfold valid_pydatetime, valid_datetime, max_ordinal; simpl; lia.
  - reflexivity.
Defined.

(** X17.  After [nearest_minute], [convert_to_minutes] gives whole minutes, as
    the note in its docstring says: the float is exactly the integer
    hour*60 + minute of the rounded instant. *)
Theorem nearest_minute_whole_minutes (d r : pydatetime) :
  valid_pydatetime d ->
  nearest_minute d = Some r ->
  let v := convert_to_minutes (mkTime (clock r)) in
  let n := hour (clock r) * 60 + minute (clock r) in
  PrimFloat.eqb v (float_of_int n) = true
  /\ exists q, Q_of_float v = Some q /\ (q == inject_Z n)%Q.
Proof.
  intros V H. pose proof (nearest_minute_cases d V) as Hc. rewrite H in Hc.
  destruct Hc as ((_ & Hh & Hm & _ & _) & Hs & _).
  destruct r as [ord [h m s us]].
  cbn [clock hour minute second] in *. subst s.
  exact (whole_minute_exact h m us Hh Hm).
Qed.

Lemma nearest_minute_whole_minutes_witness :
  PrimFloat.eqb
    (convert_to_minutes (mkTime (mkDatetime 13 31 0 0))) (float_of_int 811)
  = true.
Proof.
  refine (proj1 (nearest_minute_whole_minutes
                   (mkPy 737425 (mkDatetime 13 30 45 250000))
                   (mkPy 737425 (mkDatetime 13 31 0 0)) _ _)).
  - unfold valid_pydatetime, valid_datetime, max_ordinal; simpl; lia.
  - reflexivity.
Defined.
